(** * omni-schema, plugin [ui-html5.js]: rendering a schema as HTML5 markup

    A shallow embedding of [src/plugins/ui-html5.js] and the properties of
    its rendering functions.  JavaScript strings are [string]; template
    literals are written out as concatenations; a function that can throw
    returns a [result]; the one function that writes to an object it was
    handed returns that object's final state next to its value. *)

From Stdlib Require Import String Ascii List ZArith Bool Lia DecimalString.
Import ListNotations.
Open Scope string_scope.

(* ================================================================= *)
(** ** JavaScript values *)

(** Primitive values.  Numbers are the safe integers (enumeration values
    and attribute values such as [rows: 3], between [Number.MIN_SAFE_INTEGER]
    and [Number.MAX_SAFE_INTEGER]), which [toString] prints in plain decimal;
    see [prints] below. *)
Inductive prim : Type :=
| PUndef
| PNull
| PBool (b : bool)
| PNum (z : Z)
| PStr (s : string).

(** A plain object is its own properties in insertion order, which is the
    order [_.forOwn] visits them in (no property name is an array index). *)
#[warnings="-register-all"]
Inductive jsval : Type :=
| JPrim (p : prim)
| JObj (o : list (string * jsval)).

Definition obj : Type := list (string * jsval).

Definition JUndef : jsval := JPrim PUndef.
Definition JNull : jsval := JPrim PNull.
Definition JStr (s : string) : jsval := JPrim (PStr s).
Definition JNum (z : Z) : jsval := JPrim (PNum z).
Definition JBool (b : bool) : jsval := JPrim (PBool b).

(** The two characters the templates need and a literal cannot hold. *)
Definition dq : string := String (ascii_of_nat 34) EmptyString.
Definition nl : string := String (ascii_of_nat 10) EmptyString.

Definition num_toString (z : Z) : string := NilZero.string_of_int (Z.to_int z).

(** [String(v)], the conversion a template literal applies to [${v}], and
    [v.toString()]; an object is a plain record with the inherited
    [toString], see [prints] below. *)
Definition prim_toString (p : prim) : string :=
  match p with
  | PUndef => "undefined"
  | PNull => "null"
  | PBool true => "true"
  | PBool false => "false"
  | PNum z => num_toString z
  | PStr s => s
  end.

Definition toString (v : jsval) : string :=
  match v with
  | JPrim p => prim_toString p
  | JObj _ => "[object Object]"
  end.

(** Truthiness, as [if (v)], [!v] and [c ? a : b] test it. *)
Definition truthy (v : jsval) : bool :=
  match v with
  | JPrim PUndef | JPrim PNull => false
  | JPrim (PBool b) => b
  | JPrim (PNum z) => negb (Z.eqb z 0)
  | JPrim (PStr s) => negb (String.eqb s EmptyString)
  | JObj _ => true
  end.

(** [p === v] for a primitive [p].  An object is never strictly equal to a
    primitive, so no object identity is needed. *)
Definition strict_eq (p : prim) (v : jsval) : bool :=
  match p, v with
  | PUndef, JPrim PUndef => true
  | PNull, JPrim PNull => true
  | PBool a, JPrim (PBool b) => Bool.eqb a b
  | PNum a, JPrim (PNum b) => Z.eqb a b
  | PStr a, JPrim (PStr b) => String.eqb a b
  | _, _ => false
  end.

(* ================================================================= *)
(** ** Plain objects *)

(** Own property lookup. *)
Fixpoint lookup (o : obj) (k : string) : option jsval :=
  match o with
  | [] => None
  | (k', v) :: rest => if String.eqb k' k then Some v else lookup rest k
  end.

(** [o[k]] on an object. *)
Definition prop (o : obj) (k : string) : jsval :=
  match lookup o k with
  | Some v => v
  | None => JUndef
  end.

(** [o[k] = v]: an existing property keeps its place, a new one goes last. *)
Fixpoint set (k : string) (v : jsval) (o : obj) : obj :=
  match o with
  | [] => [(k, v)]
  | (k', v') :: rest =>
      if String.eqb k' k then (k', v) :: rest else (k', v') :: set k v rest
  end.

(** One source of [Object.assign(target, source)]. *)
Definition assign1 (target source : obj) : obj :=
  fold_left (fun t kv => set (fst kv) (snd kv) t) source target.

(** [Object.assign({}, a, b)]; an [undefined] source ([None]) is skipped. *)
Definition assign (a : option obj) (b : obj) : obj :=
  assign1 (assign1 [] (match a with Some o => o | None => [] end)) b.

(** The property [_.omit(props, key)] leaves out: [key], and the property
    named [undefined] when [key] is undefined ([None]). *)
Definition omittedKey (key : option string) : string :=
  match key with
  | Some k => k
  | None => "undefined"
  end.

(** [_.omit(props, key)]. *)
Definition omit (o : obj) (key : option string) : obj :=
  filter (fun kv => negb (String.eqb (fst kv) (omittedKey key))) o.

(** [_.get(object, key)] for a key that is a plain property name, which
    lodash reads as one key (a name with a dot or a bracket is read as a path,
    and a name of a built-in member finds that member): [undefined] on
    [undefined], [null] and the other primitives; see [plainName] below. *)
Definition lodash_get (object : jsval) (k : string) : jsval :=
  match object with
  | JObj o => prop o k
  | JPrim _ => JUndef
  end.

(* ================================================================= *)
(** ** Exceptions *)

Inductive JsError : Type :=
| TypeError (msg : string)
| ReferenceError (msg : string)
| Error (msg : string).

Inductive result (A : Type) : Type :=
| Ok (a : A)
| Throw (e : JsError).
Arguments Ok {A} a.
Arguments Throw {A} e.

Definition bind {A B : Type} (r : result A) (k : A -> result B) : result B :=
  match r with
  | Ok a => k a
  | Throw e => Throw e
  end.

Notation "x <- r ;; k" := (bind r (fun x => k))
  (at level 61, r at next level, right associativity).

(** [v[k]] as an expression: it throws on [undefined] and [null]. *)
Definition index (v : jsval) (k : string) : result jsval :=
  match v with
  | JPrim PUndef =>
      Throw (TypeError ("Cannot read properties of undefined (reading '" ++ k ++ "')"))
  | JPrim PNull =>
      Throw (TypeError ("Cannot read properties of null (reading '" ++ k ++ "')"))
  | JPrim _ => Ok JUndef
  | JObj o => Ok (prop o k)
  end.

(* ================================================================= *)
(** ** Data types, fields and schemas *)

(** One entry of a type's [enumValues]. *)
Record EnumValue : Type := mkEnumValue {
  ev_value : prim;
  ev_label : string
}.

(** A data type with its resolved traits: the ones this plugin reads. *)
Record DataType : Type := mkDataType {
  dt_name : string;
  jsType : string;
  htmlSpec : option obj;
  enumValues : option (list EnumValue)
}.

(** A field, and what its [type] refers to: a data type or a schema.  A
    schema is its [collectionName] and what [getField] returns for each name
    of [getFieldList], in order: [Some f] for an [OmniField], [None] for
    anything else.  [presentation] is [_.get(field, 'ui.presentation')]. *)
#[warnings="-register-all"]
Inductive OmniField : Type :=
| mkField (name label : string) (type : FieldType)
          (isRequired uiExclude : bool) (presentation : jsval)
with FieldType : Type :=
| TSchema (collectionName : string) (members : list (option OmniField))
| TData (dt : DataType).

Definition name (f : OmniField) : string :=
  match f with mkField n _ _ _ _ _ => n end.
Definition label (f : OmniField) : string :=
  match f with mkField _ l _ _ _ _ => l end.
Definition type (f : OmniField) : FieldType :=
  match f with mkField _ _ t _ _ _ => t end.
Definition isRequired (f : OmniField) : bool :=
  match f with mkField _ _ _ r _ _ => r end.
Definition uiExclude (f : OmniField) : bool :=
  match f with mkField _ _ _ _ x _ => x end.
Definition presentation (f : OmniField) : jsval :=
  match f with mkField _ _ _ _ _ p => p end.

(** [field.type.enumValues] and [field.type.jsType]; a schema has neither. *)
Definition field_enumValues (f : OmniField) : list EnumValue :=
  match type f with
  | TData dt => match enumValues dt with Some evs => evs | None => [] end
  | TSchema _ _ => []
  end.

Definition field_jsType (f : OmniField) : jsval :=
  match type f with
  | TData dt => JStr (jsType dt)
  | TSchema _ _ => JUndef
  end.

(* ================================================================= *)
(** ** [OmniSchema.html5.getPropsAsAttributeString] *)

Definition attribute (kv : string * jsval) : string :=
  " " ++ fst kv ++ "=" ++ dq ++ toString (snd kv) ++ dq.

(** [props] is [None] when the argument is falsy. *)
Definition getPropsAsAttributeString (props : option obj) (ignoreProps : option string)
    : string :=
  match props with
  | None => " "
  | Some o =>
      fold_left (fun attribs kv => attribs ++ attribute kv) (omit o ignoreProps) EmptyString
  end.

(** The fragment [${field.isRequired?'required="required" ':''}] of the
    input, radio and checkbox templates. *)
Definition requiredAttr (required : bool) : string :=
  if required then "required=" ++ dq ++ "required" ++ dq ++ " " else EmptyString.

(* ================================================================= *)
(** ** The enumeration renderers *)

Definition strDefault (defaultValue : jsval) : jsval :=
  match defaultValue with
  | JPrim PUndef | JPrim PNull => JUndef
  | v => JStr (toString v)
  end.

Definition selectOption (str : jsval) (ev : EnumValue) : string :=
  "  <option value=" ++ dq ++ prim_toString (ev_value ev) ++ dq ++ " "
  ++ (if strict_eq (ev_value ev) str then "selected" else EmptyString)
  ++ ">" ++ ev_label ev ++ "</option>" ++ nl.

Definition getEnumAsSelect (field : OmniField) (controlProps : obj)
    (defaultValue : jsval) (fieldNamePrefix : string) : string :=
  let code := "<select size=" ++ dq ++ "1" ++ dq ++ " name=" ++ dq
              ++ fieldNamePrefix ++ name field ++ dq ++ " "
              ++ (if isRequired field then "required=" ++ dq ++ "required" ++ dq
                  else EmptyString)
              ++ ">" ++ nl in
  let str := strDefault defaultValue in
  let code := fold_left (fun code ev => code ++ selectOption str ev)
                        (field_enumValues field) code in
  code ++ "</select>" ++ nl.

Definition radioProps (controlProps : obj) (defaultValue : jsval) (ev : EnumValue) : obj :=
  let mergedProps := assign (Some controlProps) [("type", JStr "radio")] in
  if strict_eq (ev_value ev) defaultValue
  then set "checked" (JBool true) mergedProps
  else mergedProps.

Definition radioOption (field : OmniField) (controlProps : obj)
    (defaultValue : jsval) (fieldNamePrefix : string) (ev : EnumValue) : string :=
  ("<input" ++ getPropsAsAttributeString (Some (radioProps controlProps defaultValue ev)) (Some "elementName")
   ++ " " ++ requiredAttr (isRequired field)
   ++ "name=" ++ dq ++ fieldNamePrefix ++ name field ++ dq
   ++ " value=" ++ dq ++ prim_toString (ev_value ev) ++ dq ++ " />")
  ++ ("&nbsp;" ++ ev_label ev ++ "<br/>" ++ nl).

Definition getEnumAsRadio (field : OmniField) (controlProps : obj)
    (defaultValue : jsval) (fieldNamePrefix : string) : string :=
  fold_left
    (fun code ev => code ++ radioOption field controlProps defaultValue fieldNamePrefix ev)
    (field_enumValues field) EmptyString.

Definition checkboxProps (controlProps : obj) (defaultValue : jsval) : obj :=
  let mergedProps := assign (Some controlProps) [("type", JStr "checkbox")] in
  if truthy defaultValue then set "checked" (JBool true) mergedProps else mergedProps.

Definition getEnumAsCheckbox (field : OmniField) (controlProps : obj)
    (defaultValue : jsval) (fieldNamePrefix : string) : string :=
  "<input" ++ getPropsAsAttributeString (Some (checkboxProps controlProps defaultValue)) (Some "elementName")
  ++ " " ++ requiredAttr (isRequired field)
  ++ "name=" ++ dq ++ fieldNamePrefix ++ name field ++ dq ++ " />".

(* ================================================================= *)
(** ** The type behaviours registered under [onType] *)

(** [Object.assign({}, this.htmlSpec, controlProps)], the options a type
    behaviour works with. *)
Definition mergedOptions (this : DataType) (controlProps : obj) : obj :=
  assign (htmlSpec this) controlProps.

(** The behaviour for types matching [{htmlSpec: {elementName: 'input'}}].
    It assigns to [controlProps.value], an object its caller owns, so it
    returns the final [controlProps] together with the markup. *)
Definition input_getHtml (this : DataType) (field : OmniField) (controlProps : obj)
    (defaultValue : jsval) (fieldNamePrefix : string) : obj * string :=
  let controlProps :=
    match defaultValue with
    | JPrim PUndef => controlProps
    | _ => set "value" defaultValue controlProps
    end in
  let mergedProps := mergedOptions this controlProps in
  (controlProps,
   "<input" ++ getPropsAsAttributeString (Some mergedProps) (Some "elementName")
   ++ " " ++ requiredAttr (isRequired field)
   ++ "name=" ++ dq ++ fieldNamePrefix ++ name field ++ dq ++ " />").

(** The call [getBoolAsCheckbox(...)]: the module binds no such identifier
    (the checkbox renderer is declared as [getEnumAsCheckbox]), and evaluating
    an unbound identifier throws. *)
Definition getBoolAsCheckbox_call : result string :=
  Throw (ReferenceError "getBoolAsCheckbox is not defined").

(** The [switch (presentation)] of the enumeration behaviour: [Some r] when
    a case returns (or throws), [None] when control leaves it by [break] or
    the [if (presentation)] is not entered. *)
Definition enum_switch (this : DataType) (field : OmniField) (controlProps : obj)
    (defaultValue : jsval) (fieldNamePrefix : string) : option (result string) :=
  let presentation := presentation field in
  if truthy presentation then
    if strict_eq (PStr "select") presentation then
      Some (Ok (getEnumAsSelect field (mergedOptions this controlProps)
                                defaultValue fieldNamePrefix))
    else if strict_eq (PStr "radio") presentation then
      Some (Ok (getEnumAsRadio field (mergedOptions this controlProps)
                               defaultValue fieldNamePrefix))
    else if strict_eq (PStr "checkbox") presentation then
      if strict_eq (PStr "boolean") (field_jsType field)
      then Some getBoolAsCheckbox_call
      else None
    else None
  else None.

(** The behaviour for types matching ['enumValues']. *)
Definition enum_getHtml (this : DataType) (field : OmniField) (controlProps : obj)
    (defaultValue : jsval) (fieldNamePrefix : string) : result string :=
  match enum_switch this field controlProps defaultValue fieldNamePrefix with
  | Some r => r
  | None =>
      Ok (getEnumAsSelect field (mergedOptions this controlProps)
                          defaultValue fieldNamePrefix)
  end.

Inductive TypeBehavior : Type :=
| InputGetHtml
| EnumGetHtml.

(** The two [matches] entries of [onType]. *)
Definition matches_htmlSpec_input (dt : DataType) : bool :=
  match htmlSpec dt with
  | Some spec => strict_eq (PStr "input") (prop spec "elementName")
  | None => false
  end.

Definition matches_enumValues (dt : DataType) : bool :=
  match enumValues dt with
  | Some _ => true
  | None => false
  end.

(** The [onType] list, in the order the plugin lists it. *)
Definition onType : list ((DataType -> bool) * TypeBehavior) :=
  [ (matches_htmlSpec_input, InputGetHtml);
    (matches_enumValues, EnumGetHtml) ].

(** Modelled from the spec: [OmniSchema.mixin], which installs the [onType]
    functions on the data types and is not part of this plugin's source.
    The candidates are walked in registration order and the last one whose
    predicate matches the type's resolved traits is the type's [getHtml];
    a type no candidate matches has none. *)
Definition resolve (registrations : list ((DataType -> bool) * TypeBehavior))
    (dt : DataType) : option TypeBehavior :=
  fold_left (fun found (r : (DataType -> bool) * TypeBehavior) =>
               if fst r dt then Some (snd r) else found)
            registrations None.

(** [type.getHtml], as installed. *)
Definition type_getHtml (dt : DataType) : option TypeBehavior := resolve onType dt.

(** Calling an installed behaviour: the final state of [controlProps] and
    the value or exception. *)
Definition call_getHtml (b : TypeBehavior) (this : DataType) (field : OmniField)
    (controlProps : obj) (defaultValue : jsval) (fieldNamePrefix : string)
    : obj * result string :=
  match b with
  | InputGetHtml =>
      let r := input_getHtml this field controlProps defaultValue fieldNamePrefix in
      (fst r, Ok (snd r))
  | EnumGetHtml =>
      (controlProps, enum_getHtml this field controlProps defaultValue fieldNamePrefix)
  end.

(* ================================================================= *)
(** ** [onField.getHtml] and [onSchema.getHtmlFields] *)

Section FieldsLoop.

(** [field.getHtml(defaultValue, fieldNamePrefix)] *)
Variable getHtml : OmniField -> jsval -> string -> result string.

(** The [for (let fieldName of fl)] loop of [getHtmlFields], from a given
    value of [code]. *)
Fixpoint fieldsLoop (fl : list (option OmniField)) (defaultData : jsval)
    (fieldNamePrefix : string) (code : string) : result string :=
  match fl with
  | [] => Ok code
  | Some field :: rest =>
      if negb (uiExclude field) then
        let defaultValue := lodash_get defaultData (name field) in
        html <- getHtml field defaultValue fieldNamePrefix ;;
        fieldsLoop rest defaultData fieldNamePrefix (code ++ html ++ nl)
      else fieldsLoop rest defaultData fieldNamePrefix code
  | None :: rest => fieldsLoop rest defaultData fieldNamePrefix code
  end.

End FieldsLoop.

Fixpoint field_getHtml (this : OmniField) (defaultValue : jsval)
    (fieldNamePrefix : string) {struct this} : result string :=
  match this with
  | mkField this_name this_label this_type _ _ _ =>
      match this_type with
      | TSchema collectionName members =>
          innerData <- index defaultValue this_name ;;
          fields <- fieldsLoop field_getHtml members innerData
                      (fieldNamePrefix ++ this_name ++ ".") EmptyString ;;
          Ok ("<div class=" ++ dq ++ "_" ++ collectionName ++ " _obj" ++ dq ++ ">" ++ nl
              ++ "<label class=" ++ dq ++ "_objLabel" ++ dq ++ ">" ++ this_label
              ++ "</label>" ++ nl ++ fields ++ "</div>")
      | TData dt =>
          match type_getHtml dt with
          | None =>
              Throw (Error ("getHtml has not been defined for datatype " ++ dt_name dt))
          | Some getHtml =>
              html <- snd (call_getHtml getHtml dt this [] defaultValue fieldNamePrefix) ;;
              Ok ("<label>" ++ this_label ++ " " ++ html ++ "</label>")
          end
      end
  end.

(** [schema.getHtmlFields(defaultData, fieldNamePrefix)], the schema given
    by its members. *)
Definition getHtmlFields (members : list (option OmniField)) (defaultData : jsval)
    (fieldNamePrefix : string) : result string :=
  fieldsLoop field_getHtml members defaultData fieldNamePrefix EmptyString.

(** [schema.getHtmlForm(submitButtonName, formProps, defaultData)] *)
Definition getHtmlForm (members : list (option OmniField)) (submitButtonName : jsval)
    (formProps : option obj) (defaultData : jsval) : result string :=
  let code := "<form" ++ getPropsAsAttributeString formProps None ++ " >" ++ nl in
  fields <- getHtmlFields members defaultData EmptyString ;;
  let code := code ++ fields in
  let code :=
    if truthy submitButtonName then
      code ++ "<input type=" ++ dq ++ "submit" ++ dq ++ " value=" ++ dq
           ++ toString submitButtonName ++ dq ++ " />" ++ nl
    else if negb (strict_eq PNull submitButtonName) then
      code ++ "<input type=" ++ dq ++ "submit" ++ dq ++ " />" ++ nl
    else code in
  Ok (code ++ "</form>" ++ nl).

(* ================================================================= *)
(** ** [OmniSchema.html5.defineHtmlType] and the types the plugin defines *)

(** [defineHtmlType(name, elementName, props)]: the name and the [htmlSpec]
    trait it hands to [OmniTypes.defineDataType], that is
    [Object.assign({ elementName }, props)]; [props] is [None] when left out. *)
Definition defineHtmlType (name elementName : string) (props : option obj)
    : string * obj :=
  (name,
   assign1 [("elementName", JStr elementName)]
           (match props with Some o => o | None => [] end)).

(** The calls of [defineHtmlType] in [plugin], in order. *)
Definition plugin_types : list (string * obj) :=
  [ defineHtmlType "String" "input" (Some [("type", JStr "text")]);
    defineHtmlType "Number" "input" (Some [("type", JStr "number")]);
    defineHtmlType "Boolean" "input" (Some [("type", JStr "checkbox")]);
    defineHtmlType "Text" "textarea" (Some [("rows", JNum 3)]);
    defineHtmlType "FullName" "input"
      (Some [("type", JStr "text"); ("autocomplete", JStr "name")]);
    defineHtmlType "FirstName" "input"
      (Some [("type", JStr "text"); ("autocomplete", JStr "given-name")]);
    defineHtmlType "LastName" "input"
      (Some [("type", JStr "text"); ("autocomplete", JStr "family-name")]);
    defineHtmlType "Password" "input" (Some [("type", JStr "password")]);
    defineHtmlType "Phone" "input" (Some [("type", JStr "tel")]);
    defineHtmlType "Email" "input"
      (Some [("type", JStr "email"); ("autocomplete", JStr "email")]);
    defineHtmlType "Url" "input" (Some [("type", JStr "url")]);
    defineHtmlType "StreetAddress" "input"
      (Some [("type", JStr "text"); ("autocomplete", JStr "address-line1")]);
    defineHtmlType "PostalCode" "input"
      (Some [("type", JStr "text"); ("autocomplete", JStr "postal-code")]);
    defineHtmlType "Integer" "input"
      (Some [("type", JStr "range"); ("min", JNum (-9007199254740991));
             ("max", JNum 9007199254740991)]);
    defineHtmlType "Date" "input" (Some [("type", JStr "date")]);
    defineHtmlType "Time" "input" (Some [("type", JStr "time")]);
    defineHtmlType "DateTime" "input" (Some [("type", JStr "datetime-local")]) ].

(* ================================================================= *)
(** ** Sample types and schemas *)

Definition String_type : DataType :=
  mkDataType "String" "string"
    (Some [("elementName", JStr "input"); ("type", JStr "text")]) None.

Definition Text_type : DataType :=
  mkDataType "Text" "string"
    (Some [("elementName", JStr "textarea"); ("rows", JNum 3)]) None.

Definition zip_field : OmniField :=
  mkField "zip" "Zip" (TData String_type) false false JUndef.

Definition address_field : OmniField :=
  mkField "address" "Address" (TSchema "Address" [Some zip_field]) false false JUndef.

Definition customer_field : OmniField :=
  mkField "customer" "Customer" (TSchema "Customer" [Some address_field]) false false JUndef.

Definition secret_field : OmniField :=
  mkField "secret" "Secret" (TData Text_type) true true JUndef.

Definition YesNo_type : DataType :=
  mkDataType "YesNo" "boolean" None
    (Some [mkEnumValue (PBool true) "Yes"; mkEnumValue (PBool false) "No"]).

Definition Rating_type : DataType :=
  mkDataType "Rating" "number" None
    (Some [mkEnumValue (PNum 1) "One"; mkEnumValue (PNum 2) "Two"]).

Definition Pin_type : DataType :=
  mkDataType "Pin" "string"
    (Some [("elementName", JStr "input"); ("type", JStr "password");
           ("required", JStr "required")]) None.

Definition pin_field : OmniField :=
  mkField "pin" "PIN" (TData Pin_type) false false JUndef.

Definition Status_type : DataType :=
  mkDataType "Status" "string" None
    (Some [mkEnumValue (PStr "draft") "Draft"; mkEnumValue (PStr "live") "Live"]).

Definition status_field : OmniField :=
  mkField "status" "Status" (TData Status_type) true false JUndef.

Definition Valued_type : DataType :=
  mkDataType "Valued" "string"
    (Some [("elementName", JStr "input"); ("type", JStr "text"); ("value", JStr "spec")])
    None.

Definition rating_field : OmniField :=
  mkField "rating" "Rating" (TData Rating_type) false false JUndef.

Definition yesno_field : OmniField :=
  mkField "active" "Active" (TData YesNo_type) false false JUndef.

Definition agree_field : OmniField :=
  mkField "agree" "Agree" (TData YesNo_type) false false (JStr "checkbox").

(* ================================================================= *)
(** ** Vocabulary of the properties *)

(** [t] occurs in [s]. *)
Definition Contains (s t : string) : Prop := exists a b, s = a ++ t ++ b.


Definition withRequired (required : bool) (f : OmniField) : OmniField :=
  mkField (name f) (label f) (type f) required (uiExclude f) (presentation f).

(** The marker of a required control. *)
Definition requiredMarker : string := "required=" ++ dq ++ "required" ++ dq.

(** The attribute that names a control. *)
Definition nameAttr (controlName : string) : string := "name=" ++ dq ++ controlName ++ dq.

(** [leaf] is reached from [parent] through schema-typed fields that are
    rendered; [path] lists the names of these fields, outermost first. *)
Inductive NestedIn : OmniField -> list string -> OmniField -> Prop :=
| NestedIn_member parent collectionName members child :
    type parent = TSchema collectionName members ->
    In (Some child) members ->
    uiExclude child = false ->
    NestedIn parent [name parent] child
| NestedIn_deeper parent collectionName members child path leaf :
    type parent = TSchema collectionName members ->
    In (Some child) members ->
    uiExclude child = false ->
    NestedIn child path leaf ->
    NestedIn parent (name parent :: path) leaf.

(** [a.b.c.] for the path [a; b; c]. *)
Fixpoint dottedPrefix (path : list string) : string :=
  match path with
  | [] => EmptyString
  | n :: rest => n ++ "." ++ dottedPrefix rest
  end.

(** A data-typed field whose behaviour emits at least one control: every one
    but a radio group over no values. *)
Definition rendersControl (f : OmniField) : bool :=
  match type f with
  | TData dt =>
      match type_getHtml dt with
      | Some InputGetHtml => true
      | Some EnumGetHtml =>
          negb (truthy (presentation f) && strict_eq (PStr "radio") (presentation f))
          || match field_enumValues f with [] => false | _ :: _ => true end
      | None => false
      end
  | TSchema _ _ => false
  end.


(** An object's property names are distinct. *)
Definition wf_obj (o : obj) : Prop := NoDup (map fst o).

(** An installed behaviour returns markup for a field: every one but the
    enumeration behaviour sent to the checkbox renderer. *)
Definition behaviourRenders (b : TypeBehavior) (f : OmniField) : bool :=
  match b with
  | InputGetHtml => true
  | EnumGetHtml =>
      negb (strict_eq (PStr "checkbox") (presentation f)
            && strict_eq (PStr "boolean") (field_jsType f))
  end.

(** A value [toString] is exact on: a safe integer, which JavaScript prints
    in plain decimal, any other primitive, or an object with no [toString]
    property of its own, which prints through the inherited one (with one of
    its own, that is not a function here, conversion to text throws). *)
Definition prints (v : jsval) : bool :=
  match v with
  | JPrim (PNum z) => Z.leb (-9007199254740991) z && Z.leb z 9007199254740991
  | JPrim _ => true
  | JObj o => match lookup o "toString" with Some _ => false | None => true end
  end.

(** Every property value of an object prints. *)
Definition props_print (o : obj) : Prop := forall kv, In kv o -> prints (snd kv) = true.

(** A property name that is no array index: such names are visited in
    insertion order. *)
Definition notIndex (k : string) : bool :=
  match k with
  | EmptyString => true
  | String c _ => negb (Nat.leb 48 (nat_of_ascii c) && Nat.leb (nat_of_ascii c) 57)
  end.

Fixpoint hasChar (c : ascii) (s : string) : bool :=
  match s with
  | EmptyString => false
  | String c' s' => Ascii.eqb c c' || hasChar c s'
  end.

(** The members of [Object.prototype]. *)
Definition objectPrototypeNames : list string :=
  [ "constructor"; "hasOwnProperty"; "isPrototypeOf"; "propertyIsEnumerable";
    "toLocaleString"; "toString"; "valueOf"; "__proto__";
    "__defineGetter__"; "__defineSetter__"; "__lookupGetter__"; "__lookupSetter__" ].

(** A name [_.get] reads as one own key of a record: no dot, no bracket, and
    not the name of a member every object inherits. *)
Definition plainName (n : string) : bool :=
  negb (hasChar "." n) && negb (hasChar "[" n)
  && negb (existsb (String.eqb n) objectPrototypeNames).

(** Default data that is a record or absent, not a string, number or
    boolean (which have members of their own). *)
Definition isRecord (v : jsval) : bool :=
  match v with
  | JObj _ | JPrim PUndef | JPrim PNull => true
  | JPrim _ => false
  end.

(** The same type with another [htmlSpec]. *)
Definition withHtmlSpec (spec : option obj) (dt : DataType) : DataType :=
  mkDataType (dt_name dt) (jsType dt) spec (enumValues dt).

(** The word of the required marker. *)
Definition requiredWord : string := "required".

(** [w] starts [s]; [w] occurs in [s]. *)
Fixpoint startsWith (w s : string) : bool :=
  match w, s with
  | EmptyString, _ => true
  | String c w', String c' s' => Ascii.eqb c c' && startsWith w' s'
  | String _ _, EmptyString => false
  end.

Fixpoint occursb (w s : string) : bool :=
  startsWith w s
  || match s with
     | EmptyString => false
     | String _ s' => occursb w s'
     end.

Fixpoint lastChar (c : ascii) (s : string) : ascii :=
  match s with
  | EmptyString => c
  | String c' s' => lastChar c' s'
  end.

Fixpoint initStr (c : ascii) (s : string) : string :=
  match s with
  | EmptyString => EmptyString
  | String c' s' => String c (initStr c' s')
  end.

(** A fixed piece of a template that cannot take part in an occurrence of
    [w] reaching out of it: [w] does not occur in it, and neither its first
    nor its last character is one of [w]. *)
Definition inert (w t : string) : bool :=
  match t with
  | EmptyString => false
  | String c r =>
      negb (hasChar c w) && negb (hasChar (lastChar c r) w) && negb (occursb w t)
  end.

(** Markup as a sequence of fixed pieces and interpolated texts. *)
Inductive piece : Type :=
| Lit (t : string)
| Txt (s : string).

Definition pieceText (p : piece) : string :=
  match p with Lit t => t | Txt s => s end.

Fixpoint flatten (ps : list piece) : string :=
  match ps with
  | [] => EmptyString
  | p :: rest => pieceText p ++ flatten rest
  end.

(** The fixed pieces are inert and no two texts are adjacent. *)
Fixpoint separated (w : string) (ps : list piece) : bool :=
  match ps with
  | [] => true
  | Lit t :: rest => inert w t && separated w rest
  | Txt _ :: rest =>
      match rest with
      | Txt _ :: _ => false
      | _ => separated w rest
      end
  end.

(** A member [getHtmlFields] passes over. *)
Definition skipped (m : option OmniField) : bool :=
  match m with
  | Some f => uiExclude f
  | None => true
  end.

(** A default value is given: [typeof v !== 'undefined']. *)
Definition given (v : jsval) : bool :=
  match v with
  | JPrim PUndef => false
  | _ => true
  end.

(** A value other than [undefined] and [null]. *)
Definition defined (v : jsval) : bool :=
  match v with
  | JPrim PUndef | JPrim PNull => false
  | _ => true
  end.

(* ================================================================= *)
(** ** Strings *)

Lemma append_nil_r (s : string) : s ++ EmptyString = s.
Proof. induction s as [|c s IH]; simpl; [reflexivity | now rewrite IH]. Qed.

Lemma append_assoc (a b c : string) : (a ++ b) ++ c = a ++ b ++ c.
Proof. induction a as [|x a IH]; simpl; [reflexivity | now rewrite IH]. Qed.

Lemma Contains_refl (s : string) : Contains s s.
Proof. exists EmptyString, EmptyString. now rewrite append_nil_r. Qed.

Lemma Contains_app_l (s t r : string) : Contains s t -> Contains (s ++ r) t.
Proof.
  intros (a & b & ->). exists a, (b ++ r). now rewrite !append_assoc.
Qed.

Lemma Contains_app_r (s t r : string) : Contains s t -> Contains (r ++ s) t.
Proof.
  intros (a & b & ->). exists (r ++ a), b. now rewrite !append_assoc.
Qed.

Lemma Contains_trans (s t u : string) : Contains s t -> Contains t u -> Contains s u.
Proof.
  intros (a & b & ->) (c & d & ->).
  exists (a ++ c), (d ++ b). now rewrite !append_assoc.
Qed.

Lemma Contains_String (c : ascii) (s t : string) :
  Contains s t -> Contains (String c s) t.
Proof. intros (a & b & ->). now exists (String c a), b. Qed.

Lemma Contains_prefix (t rest : string) : Contains (t ++ rest) t.
Proof. now exists EmptyString, rest. Qed.

(** The [name] attribute as the templates spell it out. *)
Lemma Contains_nameAttr (pfx n rest : string) :
  Contains ("name=" ++ dq ++ pfx ++ n ++ dq ++ rest) (nameAttr (pfx ++ n)).
Proof.
  exists EmptyString, rest. unfold nameAttr. now rewrite !append_assoc.
Qed.

Lemma Contains_requiredAttr (rest : string) :
  Contains (requiredAttr true ++ rest) requiredMarker.
Proof.
  exists EmptyString, (" " ++ rest). unfold requiredAttr, requiredMarker.
  now rewrite !append_assoc.
Qed.

(** Look for an occurrence along a concatenation, closing with [tac]. *)
Ltac contains_by tac :=
  solve [ tac
        | apply Contains_app_l; contains_by tac
        | apply Contains_String; contains_by tac
        | apply Contains_app_r; contains_by tac ].

(** A loop that only appends to [code] appends to whatever it starts from. *)
Lemma fold_left_append {A : Type} (piece : A -> string) (l : list A) (code : string) :
  fold_left (fun code x => code ++ piece x) l code
  = code ++ fold_left (fun code x => code ++ piece x) l EmptyString.
Proof.
  revert code. induction l as [|x l IH]; intros code; simpl.
  - now rewrite append_nil_r.
  - rewrite IH. rewrite (IH (piece x)). now rewrite append_assoc.
Qed.

(* ================================================================= *)
(** ** Objects: [set] and [Object.assign] *)

Lemma lookup_set (k k' : string) (v : jsval) (o : obj) :
  lookup (set k v o) k' = if String.eqb k k' then Some v else lookup o k'.
Proof.
  induction o as [|[k0 v0] o IH]; simpl.
  - reflexivity.
  - destruct (String.eqb_spec k0 k) as [->|Hne]; simpl.
    + destruct (String.eqb_spec k k'); reflexivity.
    + rewrite IH. destruct (String.eqb_spec k0 k') as [->|Hne'].
      * destruct (String.eqb_spec k k'); [congruence | reflexivity].
      * reflexivity.
Qed.

Lemma lookup_absent (o : obj) (k : string) :
  ~ In k (map fst o) -> lookup o k = None.
Proof.
  induction o as [|[k0 v0] o IH]; simpl; intros Hnot.
  - reflexivity.
  - destruct (String.eqb_spec k0 k) as [->|Hne].
    + exfalso. apply Hnot. now left.
    + apply IH. intros Hin. apply Hnot. now right.
Qed.

(** Where source and target both have a property, the source's value is the
    result's; a property of one only is kept. *)
Lemma lookup_assign1 (source : obj) :
  wf_obj source ->
  forall (target : obj) (k : string),
    lookup (assign1 target source) k
    = match lookup source k with
      | Some v => Some v
      | None => lookup target k
      end.
Proof.
  unfold wf_obj, assign1.
  induction source as [|[k0 v0] source IH]; simpl; intros Hwf target k.
  - reflexivity.
  - inversion Hwf as [|? ? Hnotin Hwf']; subst.
    rewrite (IH Hwf'). rewrite lookup_set.
    destruct (String.eqb_spec k0 k) as [->|Hne].
    + now rewrite lookup_absent by assumption.
    + reflexivity.
Qed.

Lemma lookup_assign (a : option obj) (b : obj) (k : string) :
  match a with Some o => wf_obj o | None => True end ->
  wf_obj b ->
  lookup (assign a b) k
  = match lookup b k with
    | Some v => Some v
    | None => match a with Some o => lookup o k | None => None end
    end.
Proof.
  intros Ha Hb. unfold assign. rewrite (lookup_assign1 b Hb).
  destruct (lookup b k); [reflexivity|].
  destruct a as [o|].
  - rewrite (lookup_assign1 o Ha). now destruct (lookup o k).
  - reflexivity.
Qed.

Lemma set_keys_NoDup (k : string) (v : jsval) (o : obj) :
  wf_obj o -> wf_obj (set k v o).
Proof.
  unfold wf_obj. induction o as [|[k0 v0] o IH]; simpl; intros Hwf.
  - constructor; [intros [] | constructor].
  - inversion Hwf as [|? ? Hnotin Hwf']; subst.
    destruct (String.eqb_spec k0 k) as [->|Hne]; simpl.
    + now constructor.
    + constructor; [|now apply IH].
      intros Hin. apply Hnotin.
      clear - Hin Hne. induction o as [|[k1 v1] o IH]; simpl in *.
      * destruct Hin as [<-|[]]. congruence.
      * destruct (String.eqb_spec k1 k) as [->|Hne1]; simpl in *.
        -- exact Hin.
        -- destruct Hin as [<-|Hin]; [now left | right; now apply IH].
Qed.

(* ================================================================= *)
(** ** The rendering functions, equation by equation *)

Lemma field_getHtml_schema (f : OmniField) (collectionName : string)
    (members : list (option OmniField)) (defaultValue : jsval) (pfx : string) :
  type f = TSchema collectionName members ->
  field_getHtml f defaultValue pfx
  = (innerData <- index defaultValue (name f) ;;
     fields <- getHtmlFields members innerData (pfx ++ name f ++ ".") ;;
     Ok ("<div class=" ++ dq ++ "_" ++ collectionName ++ " _obj" ++ dq ++ ">" ++ nl
         ++ "<label class=" ++ dq ++ "_objLabel" ++ dq ++ ">" ++ label f
         ++ "</label>" ++ nl ++ fields ++ "</div>")).
Proof. destruct f; simpl; intros ->; reflexivity. Qed.

Lemma field_getHtml_data (f : OmniField) (dt : DataType) (defaultValue : jsval)
    (pfx : string) :
  type f = TData dt ->
  field_getHtml f defaultValue pfx
  = match type_getHtml dt with
    | None => Throw (Error ("getHtml has not been defined for datatype " ++ dt_name dt))
    | Some getHtml =>
        html <- snd (call_getHtml getHtml dt f [] defaultValue pfx) ;;
        Ok ("<label>" ++ label f ++ " " ++ html ++ "</label>")
    end.
Proof. destruct f; simpl; intros ->; reflexivity. Qed.

Section FieldsLoopFacts.

Variable getHtml : OmniField -> jsval -> string -> result string.

(** The loop only appends to [code]. *)
Lemma fieldsLoop_code (fl : list (option OmniField)) (dd : jsval) (pfx code : string) :
  fieldsLoop getHtml fl dd pfx code
  = (rest <- fieldsLoop getHtml fl dd pfx EmptyString ;; Ok (code ++ rest)).
Proof.
  revert code. induction fl as [|[f|] fl IH]; intros code; simpl.
  - now rewrite append_nil_r.
  - destruct (uiExclude f); simpl; [apply IH|].
    destruct (getHtml f (lodash_get dd (name f)) pfx) as [html|e]; simpl; [|reflexivity].
    rewrite IH. rewrite (IH (html ++ nl)).
    destruct (fieldsLoop getHtml fl dd pfx EmptyString); simpl; [|reflexivity].
    now rewrite !append_assoc.
  - apply IH.
Qed.

(** Running the loop over [pre ++ post] is running it over [pre], then
    over [post] from the code reached. *)
Lemma fieldsLoop_app (pre post : list (option OmniField)) (dd : jsval)
    (pfx code : string) :
  fieldsLoop getHtml (pre ++ post) dd pfx code
  = (code' <- fieldsLoop getHtml pre dd pfx code ;; fieldsLoop getHtml post dd pfx code').
Proof.
  revert code. induction pre as [|[f|] pre IH]; intros code; simpl.
  - reflexivity.
  - destruct (uiExclude f); simpl; [apply IH|].
    destruct (getHtml f (lodash_get dd (name f)) pfx); simpl; [apply IH | reflexivity].
  - apply IH.
Qed.

(** What the loop returns holds the markup of every member it renders. *)
Lemma fieldsLoop_member (fl : list (option OmniField)) (dd : jsval)
    (pfx code out : string) (f : OmniField) :
  fieldsLoop getHtml fl dd pfx code = Ok out ->
  In (Some f) fl ->
  uiExclude f = false ->
  exists html, getHtml f (lodash_get dd (name f)) pfx = Ok html /\ Contains out html.
Proof.
  revert code. induction fl as [|m fl IH]; intros code Hrun Hin Hshown.
  - destruct Hin.
  - destruct Hin as [->|Hin].
    + simpl in Hrun. rewrite Hshown in Hrun. simpl in Hrun.
      destruct (getHtml f (lodash_get dd (name f)) pfx) as [html|e]; simpl in Hrun;
        [|discriminate].
      exists html. split; [reflexivity|].
      rewrite fieldsLoop_code in Hrun.
      destruct (fieldsLoop getHtml fl dd pfx EmptyString) as [rest|e]; simpl in Hrun;
        [|discriminate].
      injection Hrun as <-.
      exists code, (nl ++ rest). now rewrite !append_assoc.
    + destruct m as [g|]; simpl in Hrun.
      * destruct (uiExclude g); simpl in Hrun; [now apply (IH code)|].
        destruct (getHtml g (lodash_get dd (name g)) pfx) as [html|e]; simpl in Hrun;
          [|discriminate].
        now apply (IH (code ++ html ++ nl)).
      * now apply (IH code).
Qed.

End FieldsLoopFacts.

(** The end-to-end example: a required enumeration with default [live]. *)
Example status_select :
  getHtmlFields [Some status_field] (JObj [("status", JStr "live")]) EmptyString
  = Ok ("<label>Status <select size=" ++ dq ++ "1" ++ dq ++ " name=" ++ dq ++ "status" ++ dq
        ++ " required=" ++ dq ++ "required" ++ dq ++ ">" ++ nl
        ++ "  <option value=" ++ dq ++ "draft" ++ dq ++ " >Draft</option>" ++ nl
        ++ "  <option value=" ++ dq ++ "live" ++ dq ++ " selected>Live</option>" ++ nl
        ++ "</select>" ++ nl ++ "</label>" ++ nl).
Proof. reflexivity. Qed.

(* ================================================================= *)
(** ** Exclusion *)

(** C5.  A member marked [uiExclude] adds nothing to what [getHtmlFields]
    returns: for every schema, default data and prefix the result (markup or
    exception) is that of the schema without this member; and so is the
    result of [getHtmlForm], for every submit button name and form
    properties. *)
Theorem getHtmlFields_uiExclude
    (pre post : list (option OmniField)) (f : OmniField) :
  uiExclude f = true ->
  (forall (defaultData : jsval) (pfx : string),
      getHtmlFields (pre ++ Some f :: post) defaultData pfx
      = getHtmlFields (pre ++ post) defaultData pfx)
  /\ (forall (submitButtonName : jsval) (formProps : option obj) (defaultData : jsval),
         getHtmlForm (pre ++ Some f :: post) submitButtonName formProps defaultData
         = getHtmlForm (pre ++ post) submitButtonName formProps defaultData).
Proof.
  intros Hexcluded.
  assert (Hfields : forall defaultData pfx,
             getHtmlFields (pre ++ Some f :: post) defaultData pfx
             = getHtmlFields (pre ++ post) defaultData pfx).
  { intros defaultData pfx. unfold getHtmlFields.
    rewrite !fieldsLoop_app. simpl. now rewrite Hexcluded. }
  split; [exact Hfields|].
  intros submitButtonName formProps defaultData.
  unfold getHtmlForm. now rewrite Hfields.
Qed.

Lemma getHtmlFields_uiExclude_witness :
  getHtmlFields ([Some zip_field] ++ Some secret_field :: [Some address_field])
                (JObj [("address", JObj [])]) EmptyString
  = getHtmlFields ([Some zip_field] ++ [Some address_field])
                  (JObj [("address", JObj [])]) EmptyString.
Proof.
  apply (proj1 (getHtmlFields_uiExclude [Some zip_field] [Some address_field]
                  secret_field eq_refl)).
Defined.

(* ================================================================= *)
(** ** A type without [getHtml] *)

(** C7.  A field whose type is a data type with no [getHtml] installed makes
    [field.getHtml] throw, whatever the default value and prefix; and a
    schema that renders such a field gets an exception from [getHtmlFields],
    never markup with the field left out or cut short. *)
Theorem getHtml_undefined_throws (f : OmniField) (dt : DataType) :
  type f = TData dt ->
  type_getHtml dt = None ->
  (forall (defaultValue : jsval) (pfx : string),
      field_getHtml f defaultValue pfx
      = Throw (Error ("getHtml has not been defined for datatype " ++ dt_name dt)))
  /\ (forall (pre post : list (option OmniField)) (defaultData : jsval) (pfx : string),
         uiExclude f = false ->
         exists e, getHtmlFields (pre ++ Some f :: post) defaultData pfx = Throw e).
Proof.
  intros Htype Hnone.
  assert (Hthrow : forall defaultValue pfx,
             field_getHtml f defaultValue pfx
             = Throw (Error ("getHtml has not been defined for datatype " ++ dt_name dt))).
  { intros defaultValue pfx. rewrite (field_getHtml_data f dt _ _ Htype).
    now rewrite Hnone. }
  split; [exact Hthrow|].
  intros pre post defaultData pfx Hshown.
  unfold getHtmlFields. rewrite fieldsLoop_app.
  destruct (fieldsLoop field_getHtml pre defaultData pfx EmptyString) as [code|e]; simpl.
  - rewrite Hshown. simpl. rewrite Hthrow. simpl. eauto.
  - eauto.
Qed.

Lemma getHtml_undefined_throws_witness :
  field_getHtml (mkField "notes" "Notes" (TData Text_type) false false JUndef)
                (JStr "hello") EmptyString
  = Throw (Error ("getHtml has not been defined for datatype " ++ dt_name Text_type)).
Proof.
  apply (proj1 (getHtml_undefined_throws
                  (mkField "notes" "Notes" (TData Text_type) false false JUndef)
                  Text_type eq_refl eq_refl)).
Defined.

(* ================================================================= *)
(** ** Nested schemas and dotted names *)

(** What a field with a control renders carries the field's name after the
    prefix, as the control's [name]. *)
Lemma control_named (leaf : OmniField) (defaultValue : jsval) (pfx html : string) :
  rendersControl leaf = true ->
  field_getHtml leaf defaultValue pfx = Ok html ->
  Contains html (nameAttr (pfx ++ name leaf)).
Proof.
  unfold rendersControl. intros Hctl Hrun.
  destruct (type leaf) as [c ms|dt] eqn:Htype; [discriminate|].
  rewrite (field_getHtml_data leaf dt _ _ Htype) in Hrun.
  destruct (type_getHtml dt) as [[|]|]; [| |discriminate].
  - (* the input behaviour *)
    unfold call_getHtml, input_getHtml in Hrun. cbn [fst snd bind] in Hrun.
    injection Hrun as <-.
    contains_by ltac:(apply Contains_nameAttr).
  - (* the enumeration behaviour *)
    unfold call_getHtml in Hrun. cbn [fst snd] in Hrun.
    assert (Hselect : forall cp,
               Contains ("<label>" ++ label leaf ++ " "
                         ++ getEnumAsSelect leaf cp defaultValue pfx ++ "</label>")
                        (nameAttr (pfx ++ name leaf))).
    { intros cp. unfold getEnumAsSelect. cbv zeta. rewrite fold_left_append.
      contains_by ltac:(apply Contains_nameAttr). }
    unfold enum_getHtml, enum_switch in Hrun. cbv zeta in Hrun.
    destruct (truthy (presentation leaf)); cbn [andb] in Hctl.
    + destruct (strict_eq (PStr "select") (presentation leaf)).
      { cbn [bind] in Hrun. injection Hrun as <-. apply Hselect. }
      destruct (strict_eq (PStr "radio") (presentation leaf)).
      { cbn [bind negb orb] in Hrun, Hctl. injection Hrun as <-.
        unfold getEnumAsRadio.
        destruct (field_enumValues leaf) as [|ev evs]; [discriminate|].
        cbn [fold_left]. rewrite fold_left_append. unfold radioOption at 1.
        contains_by ltac:(apply Contains_nameAttr). }
      destruct (strict_eq (PStr "checkbox") (presentation leaf)).
      { destruct (strict_eq (PStr "boolean") (field_jsType leaf)); cbn [bind] in Hrun.
        - discriminate.
        - injection Hrun as <-. apply Hselect. }
      cbn [bind] in Hrun. injection Hrun as <-. apply Hselect.
    + cbn [bind] in Hrun. injection Hrun as <-. apply Hselect.
Qed.

(** Rendering a schema-typed field renders every field nested in it, at
    any depth, under the prefix extended by the dotted path to it. *)
Lemma nested_rendered (parent leaf : OmniField) (path : list string) :
  NestedIn parent path leaf ->
  forall (defaultValue : jsval) (pfx out : string),
    field_getHtml parent defaultValue pfx = Ok out ->
    exists innerDefault html,
      field_getHtml leaf innerDefault (pfx ++ dottedPrefix path) = Ok html
      /\ Contains out html.
Proof.
  induction 1 as [parent c members child Htype Hin Hshown
                 |parent c members child path leaf Htype Hin Hshown Hnested IH];
    intros defaultValue pfx out Hrun;
    rewrite (field_getHtml_schema parent c members _ _ Htype) in Hrun;
    destruct (index defaultValue (name parent)) as [innerData|e]; cbn [bind] in Hrun;
      try discriminate;
    destruct (getHtmlFields members innerData (pfx ++ name parent ++ ".")) as [fields|e]
      eqn:Hfields; cbn [bind] in Hrun; try discriminate;
    injection Hrun as <-;
    destruct (fieldsLoop_member _ _ _ _ _ _ child Hfields Hin Hshown)
      as (html & Hchild & Hcontains).
  - exists (lodash_get innerData (name child)), html. split.
    + cbn [dottedPrefix]. exact Hchild.
    + contains_by ltac:(exact Hcontains).
  - destruct (IH _ _ _ Hchild) as (innerDefault & leafHtml & Hleaf & Hin').
    exists innerDefault, leafHtml. split.
    + cbn [dottedPrefix]. rewrite !append_assoc in Hleaf. exact Hleaf.
    + apply Contains_trans with (t := html); [|exact Hin'].
      contains_by ltac:(exact Hcontains).
Qed.

(** X16.  Where the default value of a schema-typed field can be indexed,
    rendering the field is rendering the fields of the nested schema under
    the prefix extended by the field's name and a dot, and wrapping the
    result.  This composes at every depth: when [leaf] is
    nested in [parent] along [path] and [parent] renders under prefix [pfx],
    the markup holds [leaf] rendered under [pfx ++ dottedPrefix path], and
    the control of a leaf that has one is named
    [pfx ++ dottedPrefix path ++ name leaf]. *)
Theorem nested_dotted_names (parent : OmniField) (defaultValue : jsval) (pfx : string) :
  (forall collectionName members innerData,
      type parent = TSchema collectionName members ->
      index defaultValue (name parent) = Ok innerData ->
      field_getHtml parent defaultValue pfx
      = (fields <- getHtmlFields members innerData (pfx ++ name parent ++ ".") ;;
         Ok ("<div class=" ++ dq ++ "_" ++ collectionName ++ " _obj" ++ dq ++ ">" ++ nl
             ++ "<label class=" ++ dq ++ "_objLabel" ++ dq ++ ">" ++ label parent
             ++ "</label>" ++ nl ++ fields ++ "</div>")))
  /\ (forall path leaf out,
         NestedIn parent path leaf ->
         field_getHtml parent defaultValue pfx = Ok out ->
         (exists innerDefault html,
             field_getHtml leaf innerDefault (pfx ++ dottedPrefix path) = Ok html
             /\ Contains out html)
         /\ (rendersControl leaf = true ->
             Contains out (nameAttr (pfx ++ dottedPrefix path ++ name leaf)))).
Proof.
  split.
  - intros collectionName members innerData Htype Hindex.
    rewrite (field_getHtml_schema parent collectionName members _ _ Htype).
    now rewrite Hindex.
  - intros path leaf out Hnested Hrun.
    destruct (nested_rendered parent leaf path Hnested _ _ _ Hrun)
      as (innerDefault & html & Hleaf & Hin).
    split; [now exists innerDefault, html|].
    intros Hctl.
    apply Contains_trans with (t := html); [exact Hin|].
    rewrite <- append_assoc.
    exact (control_named leaf _ _ _ Hctl Hleaf).
Qed.

Lemma nested_dotted_names_witness :
  exists out,
    field_getHtml customer_field (JObj [("customer", JObj [("address", JObj [])])])
                  EmptyString = Ok out
    /\ Contains out (nameAttr "customer.address.zip").
Proof.
  eexists. split; [reflexivity|].
  apply (proj2 (proj2 (nested_dotted_names customer_field
                         (JObj [("customer", JObj [("address", JObj [])])]) EmptyString)
                  ["customer"; "address"] zip_field _
                  (NestedIn_deeper customer_field "Customer" [Some address_field]
                     address_field ["address"] zip_field eq_refl (or_introl eq_refl) eq_refl
                     (NestedIn_member address_field "Address" [Some zip_field] zip_field
                        eq_refl (or_introl eq_refl) eq_refl))
                  eq_refl)
               eq_refl).
Defined.

(** The example of the description: [zip] inside [address], prefix empty. *)
Example address_zip :
  field_getHtml address_field (JObj []) EmptyString
  = Ok ("<div class=" ++ dq ++ "_Address _obj" ++ dq ++ ">" ++ nl
        ++ "<label class=" ++ dq ++ "_objLabel" ++ dq ++ ">Address</label>" ++ nl
        ++ "<label>Zip <input type=" ++ dq ++ "text" ++ dq
        ++ " name=" ++ dq ++ "address.zip" ++ dq ++ " /></label>" ++ nl
        ++ "</div>").
Proof. reflexivity. Qed.

(* ================================================================= *)
(** ** Presentation hints of an enumeration *)






(* ================================================================= *)
(** ** Merged options *)

Lemma strict_eq_PStr (s : string) (v : jsval) :
  strict_eq (PStr s) v = true -> v = JStr s.
Proof.
  destruct v as [[| |b|z|s']|o]; simpl; try discriminate.
  intros Heq. apply String.eqb_eq in Heq. now subst.
Qed.

(** C9, as the code has it.  The options a type behaviour works with are
    the type's [htmlSpec] merged with the control options it is called with,
    the control options winning on every key both have; the enumeration
    behaviour hands exactly these to the renderer it picks.  The input
    behaviour does the same after setting [value] in the control options to
    the default value when one is given: its control carries, for the key
    [value], the default, and for every other key the control options' value
    or else the [htmlSpec]'s. *)
Theorem merged_options_caller_wins (this : DataType) (controlProps : obj) :
  match htmlSpec this with Some spec => wf_obj spec | None => True end ->
  wf_obj controlProps ->
  (forall k,
      lookup (mergedOptions this controlProps) k
      = match lookup controlProps k with
        | Some v => Some v
        | None => match htmlSpec this with Some spec => lookup spec k | None => None end
        end)
  /\ (forall f defaultValue pfx,
         enum_getHtml this f controlProps defaultValue pfx
         = if strict_eq (PStr "radio") (presentation f) then
             Ok (getEnumAsRadio f (mergedOptions this controlProps) defaultValue pfx)
           else if strict_eq (PStr "checkbox") (presentation f)
                   && strict_eq (PStr "boolean") (field_jsType f) then
             getBoolAsCheckbox_call
           else
             Ok (getEnumAsSelect f (mergedOptions this controlProps) defaultValue pfx))
  /\ (forall f defaultValue pfx,
         let held := if given defaultValue
                     then set "value" defaultValue controlProps
                     else controlProps in
         snd (input_getHtml this f controlProps defaultValue pfx)
         = "<input"
           ++ getPropsAsAttributeString (Some (mergedOptions this held)) (Some "elementName")
           ++ " " ++ requiredAttr (isRequired f)
           ++ "name=" ++ dq ++ pfx ++ name f ++ dq ++ " />"
         /\ (forall k,
                lookup (mergedOptions this held) k
                = if String.eqb "value" k && given defaultValue then Some defaultValue
                  else match lookup controlProps k with
                       | Some v => Some v
                       | None =>
                           match htmlSpec this with
                           | Some spec => lookup spec k
                           | None => None
                           end
                       end)).
Proof.
  intros Hspec Hprops.
  split; [intros k; apply lookup_assign; assumption|].
  split.
  - intros f defaultValue pfx. unfold enum_getHtml, enum_switch. cbv zeta.
    destruct (strict_eq (PStr "radio") (presentation f)) eqn:Hradio.
    { apply strict_eq_PStr in Hradio. rewrite Hradio. reflexivity. }
    destruct (strict_eq (PStr "checkbox") (presentation f)) eqn:Hcheckbox.
    { apply strict_eq_PStr in Hcheckbox.
      destruct (strict_eq (PStr "boolean") (field_jsType f)); rewrite Hcheckbox;
        reflexivity. }
    cbn [andb].
    destruct (truthy (presentation f)); [|reflexivity].
    destruct (strict_eq (PStr "select") (presentation f)); reflexivity.
  - intros f defaultValue pfx held. split.
    + unfold held, input_getHtml. cbn [snd].
      destruct defaultValue as [[]|]; reflexivity.
    + intros k. unfold held, mergedOptions.
      destruct (given defaultValue) eqn:Hgiven.
      * rewrite lookup_assign; [|assumption|now apply set_keys_NoDup].
        rewrite lookup_set. rewrite andb_true_r.
        destruct (String.eqb "value" k); reflexivity.
      * rewrite andb_false_r. apply lookup_assign; assumption.
Qed.

Lemma merged_options_caller_wins_witness :
  lookup (mergedOptions String_type [("type", JStr "search"); ("class", JStr "wide")]) "type"
  = Some (JStr "search").
Proof.
  apply (proj1 (merged_options_caller_wins String_type
                  [("type", JStr "search"); ("class", JStr "wide")]
                  ltac:(repeat constructor; simpl; intuition congruence)
                  ltac:(repeat constructor; simpl; intuition congruence)) "type").
Defined.

(** The key [value] is in the [htmlSpec] and in the control options, and
    the control carries neither's value but the default. *)
Lemma merged_options_counterexample :
  htmlSpec Valued_type
  = Some [("elementName", JStr "input"); ("type", JStr "text"); ("value", JStr "spec")]
  /\ snd (input_getHtml Valued_type zip_field [("value", JStr "caller")] (JStr "dflt")
                        EmptyString)
     = "<input type=" ++ dq ++ "text" ++ dq ++ " value=" ++ dq ++ "dflt" ++ dq
       ++ " name=" ++ dq ++ "zip" ++ dq ++ " />"
  /\ lookup (mergedOptions Valued_type
               (fst (input_getHtml Valued_type zip_field [("value", JStr "caller")]
                                   (JStr "dflt") EmptyString))) "value"
     <> lookup [("value", JStr "caller")] "value".
Proof. repeat split; try reflexivity. discriminate. Qed.

(* ================================================================= *)
(** ** The required marker *)

(** The radio renderer is one [radioOption] per enumerated value. *)
Lemma getEnumAsRadio_options (f : OmniField) (cp : obj) (dv : jsval) (pfx : string) :
  getEnumAsRadio f cp dv pfx
  = String.concat EmptyString (map (radioOption f cp dv pfx) (field_enumValues f)).
Proof.
  unfold getEnumAsRadio.
  induction (field_enumValues f) as [|ev evs IH]; [reflexivity|].
  cbn [fold_left map]. rewrite fold_left_append, IH.
  destruct evs as [|ev' evs]; cbn [map String.concat]; [|reflexivity].
  now rewrite append_nil_r.
Qed.

(** *** Where a word can occur in markup *)

Lemma append_eq_append (a b c d : string) :
  a ++ b = c ++ d ->
  (exists m, c = a ++ m /\ b = m ++ d) \/ (exists m, a = c ++ m /\ d = m ++ b).
Proof.
  revert c. induction a as [|x a IH]; intros c Heq.
  - left. exists c. split; [reflexivity | exact Heq].
  - destruct c as [|y c].
    + right. exists (String x a). split; [reflexivity | symmetry; exact Heq].
    + simpl in Heq. injection Heq as <- Heq.
      destruct (IH c Heq) as [(m & -> & ->)|(m & -> & ->)].
      * left. now exists m.
      * right. now exists m.
Qed.

Lemma hasChar_app (c : ascii) (m r : string) : hasChar c (m ++ String c r) = true.
Proof.
  induction m as [|x m IH]; simpl.
  - now rewrite Ascii.eqb_refl.
  - rewrite IH. apply orb_true_r.
Qed.

Lemma startsWith_sound (w r : string) : startsWith w (w ++ r) = true.
Proof.
  induction w as [|c w IH]; simpl; [reflexivity|].
  now rewrite Ascii.eqb_refl, IH.
Qed.

Lemma occursb_sound (w s : string) : Contains s w -> occursb w s = true.
Proof.
  intros (a & b & ->). induction a as [|c a IH].
  - cbn [append]. pose proof (startsWith_sound w b) as Hstart.
    destruct (w ++ b); simpl; now rewrite Hstart.
  - cbn [append occursb]. rewrite IH. apply orb_true_r.
Qed.

(** An occurrence cannot reach across a character the word does not have. *)
Lemma no_straddle (w a b : string) (c : ascii) :
  hasChar c w = false ->
  Contains (a ++ String c b) w ->
  Contains a w \/ Contains b w.
Proof.
  intros Hc (x & y & Heq).
  apply append_eq_append in Heq. destruct Heq as [(m & -> & Hb)|(m & -> & Hwy)].
  - destruct m as [|c1 m].
    + simpl in Hb. destruct w as [|c' w'].
      * left. exists a, EmptyString. now rewrite append_nil_r.
      * simpl in Hb. injection Hb as <- _. simpl in Hc.
        now rewrite Ascii.eqb_refl in Hc.
    + simpl in Hb. injection Hb as _ ->. right. now exists m, y.
  - symmetry in Hwy. apply append_eq_append in Hwy.
    destruct Hwy as [(m2 & Hw & Hy)|(m2 & -> & _)].
    + destruct m2 as [|c2 m2].
      * rewrite append_nil_r in Hw. subst m. left. exists x, EmptyString.
        now rewrite append_nil_r.
      * simpl in Hy. injection Hy as <- _. subst w.
        now rewrite hasChar_app in Hc.
    + left. now exists x, m2.
Qed.

Lemma init_last (c : ascii) (s : string) :
  String c s = initStr c s ++ String (lastChar c s) EmptyString.
Proof.
  revert c. induction s as [|c' s IH]; intros c; simpl; [reflexivity|].
  now rewrite <- IH.
Qed.

(** Nor across an inert piece. *)
Lemma inert_split (w t a b : string) :
  inert w t = true ->
  Contains (a ++ t ++ b) w ->
  Contains a w \/ Contains b w.
Proof.
  destruct t as [|c r]; [discriminate|]. unfold inert.
  intros Hinert Hocc.
  apply andb_true_iff in Hinert. destruct Hinert as [Hinert Hnone].
  apply andb_true_iff in Hinert. destruct Hinert as [Hfirst Hlast].
  apply negb_true_iff in Hfirst, Hlast, Hnone.
  rewrite (init_last c r) in Hocc, Hnone.
  rewrite append_assoc in Hocc. cbn [append] in Hocc. rewrite <- append_assoc in Hocc.
  apply (no_straddle w _ b _ Hlast) in Hocc.
  destruct Hocc as [Hocc|Hocc]; [|now right].
  destruct r as [|c' r]; cbn [initStr lastChar] in *.
  - rewrite append_nil_r in Hocc. now left.
  - apply (no_straddle w a _ c Hfirst) in Hocc.
    destruct Hocc as [Hocc|Hocc]; [now left|].
    exfalso.
    assert (Hin : Contains (String c (initStr c' r) ++ String (lastChar c' r) EmptyString) w).
    { apply Contains_app_l. now apply Contains_String. }
    apply occursb_sound in Hin. congruence.
Qed.

(** A word that occurs in markup made of inert pieces and texts occurs in
    one of the texts. *)
Lemma occurs_in_text (w : string) (ps : list piece) :
  w <> EmptyString ->
  separated w ps = true ->
  Contains (flatten ps) w ->
  exists s, In (Txt s) ps /\ Contains s w.
Proof.
  intros Hw. induction ps as [|[t|s] ps IH]; cbn [flatten separated pieceText].
  - intros _ (a & b & Heq). destruct a; [|discriminate].
    destruct w; [congruence | discriminate].
  - intros Hsep Hocc. apply andb_true_iff in Hsep. destruct Hsep as [Ht Hsep].
    apply (inert_split w t EmptyString) in Hocc; [|exact Ht].
    destruct Hocc as [(a & b & Heq)|Hocc].
    + destruct a; [|discriminate]. destruct w; [congruence | discriminate].
    + destruct (IH Hsep Hocc) as (s & Hin & Hs). exists s. split; [now right | exact Hs].
  - intros Hsep Hocc. destruct ps as [|[t|s'] ps]; [| |discriminate].
    + cbn [flatten] in Hocc. rewrite append_nil_r in Hocc.
      exists s. split; [now left | exact Hocc].
    + pose proof Hsep as Hsep'. cbn [separated] in Hsep'.
      apply andb_true_iff in Hsep'. destruct Hsep' as [Ht _].
      cbn [flatten pieceText] in Hocc.
      apply (inert_split w t s) in Hocc; [|exact Ht].
      destruct Hocc as [Hocc|Hocc].
      * exists s. split; [now left | exact Hocc].
      * assert (Hrest : Contains (flatten (Lit t :: ps)) w).
        { cbn [flatten pieceText]. now apply Contains_app_r. }
        destruct (IH Hsep Hrest) as (s0 & Hin & Hs).
        exists s0. split; [now right | exact Hs].
Qed.

(** Pick the text an occurrence was found in. *)
Ltac pick_text H :=
  let s := fresh "s" in
  let Hin := fresh "Hin" in
  let Hs := fresh "Hs" in
  destruct H as (s & Hin & Hs);
  cbn [In] in Hin;
  repeat (destruct Hin as [Hin|Hin]; [try discriminate Hin; injection Hin as <-|]);
  try contradiction.

(** The word of the marker in the options of a select comes with a value
    or a label. *)
Lemma select_options_word (str : jsval) (evs : list EnumValue) :
  Contains (fold_left (fun code ev => code ++ selectOption str ev) evs EmptyString)
           requiredWord ->
  exists ev, In ev evs
             /\ (Contains (prim_toString (ev_value ev)) requiredWord
                 \/ Contains (ev_label ev) requiredWord).
Proof.
  induction evs as [|ev evs IH]; cbn [fold_left].
  - intros (a & b & Heq). destruct a; discriminate.
  - rewrite fold_left_append. intros Hocc.
    assert (Hpieces :
              exists sel,
                inert requiredWord (dq ++ " " ++ sel ++ ">") = true
                /\ (EmptyString ++ selectOption str ev)
                   ++ fold_left (fun code ev => code ++ selectOption str ev) evs EmptyString
                   = flatten [ Lit ("  <option value=" ++ dq);
                               Txt (prim_toString (ev_value ev));
                               Lit (dq ++ " " ++ sel ++ ">");
                               Txt (ev_label ev);
                               Lit ("</option>" ++ nl);
                               Txt (fold_left (fun code ev => code ++ selectOption str ev)
                                              evs EmptyString) ]).
    { exists (if strict_eq (ev_value ev) str then "selected" else EmptyString).
      split; [now destruct (strict_eq (ev_value ev) str)|].
      unfold selectOption. cbn [flatten pieceText].
      rewrite !append_assoc, append_nil_r. reflexivity. }
    destruct Hpieces as (sel & Hsel & Heq). rewrite Heq in Hocc.
    apply occurs_in_text in Hocc;
      [|discriminate|cbn [separated]; rewrite Hsel; reflexivity].
    pick_text Hocc.
    + exists ev. split; [now left | now left].
    + exists ev. split; [now left | now right].
    + destruct (IH Hs) as (ev' & Hin' & Hev'). exists ev'. split; [now right | exact Hev'].
Qed.

(** C8, as the code has it.  Each renderer writes the required marker into
    the tag of its control, between the attributes (or, for the select, the
    name) and what follows, exactly when the field's flag is set, and writes
    the attributes of the merged [htmlSpec] and control options as they are,
    whatever the flag.  When the flag is not set, the markup of the control
    holds the word of the marker only if that word occurs in a text the
    renderer interpolates: the attribute string, the control's name, or an
    enumerated value or label. *)
Theorem required_marker_follows_flag (f : OmniField) (controlProps : obj)
    (defaultValue : jsval) (pfx : string) :
  (forall this,
      let attrs :=
        getPropsAsAttributeString
          (Some (mergedOptions this
                   (fst (input_getHtml this f controlProps defaultValue pfx))))
          (Some "elementName") in
      snd (input_getHtml this f controlProps defaultValue pfx)
      = "<input" ++ attrs ++ " "
        ++ (if isRequired f then requiredMarker ++ " " else EmptyString)
        ++ nameAttr (pfx ++ name f) ++ " />"
      /\ (isRequired f = false ->
          Contains (snd (input_getHtml this f controlProps defaultValue pfx)) requiredWord ->
          Contains attrs requiredWord \/ Contains (pfx ++ name f) requiredWord))
  /\ (getEnumAsSelect f controlProps defaultValue pfx
      = "<select size=" ++ dq ++ "1" ++ dq ++ " " ++ nameAttr (pfx ++ name f) ++ " "
        ++ (if isRequired f then requiredMarker else EmptyString)
        ++ ">" ++ nl
        ++ fold_left (fun code ev => code ++ selectOption (strDefault defaultValue) ev)
                     (field_enumValues f) EmptyString
        ++ "</select>" ++ nl
      /\ (isRequired f = false ->
          Contains (getEnumAsSelect f controlProps defaultValue pfx) requiredWord ->
          Contains (pfx ++ name f) requiredWord
          \/ exists ev, In ev (field_enumValues f)
                        /\ (Contains (prim_toString (ev_value ev)) requiredWord
                            \/ Contains (ev_label ev) requiredWord)))
  /\ (forall ev,
         let attrs :=
           getPropsAsAttributeString (Some (radioProps controlProps defaultValue ev))
                                     (Some "elementName") in
         radioOption f controlProps defaultValue pfx ev
         = "<input" ++ attrs ++ " "
           ++ (if isRequired f then requiredMarker ++ " " else EmptyString)
           ++ nameAttr (pfx ++ name f)
           ++ " value=" ++ dq ++ prim_toString (ev_value ev) ++ dq ++ " />"
           ++ "&nbsp;" ++ ev_label ev ++ "<br/>" ++ nl
         /\ (isRequired f = false ->
             Contains (radioOption f controlProps defaultValue pfx ev) requiredWord ->
             Contains attrs requiredWord
             \/ Contains (pfx ++ name f) requiredWord
             \/ Contains (prim_toString (ev_value ev)) requiredWord
             \/ Contains (ev_label ev) requiredWord))
  /\ (let attrs :=
        getPropsAsAttributeString (Some (checkboxProps controlProps defaultValue))
                                  (Some "elementName") in
      getEnumAsCheckbox f controlProps defaultValue pfx
      = "<input" ++ attrs ++ " "
        ++ (if isRequired f then requiredMarker ++ " " else EmptyString)
        ++ nameAttr (pfx ++ name f) ++ " />"
      /\ (isRequired f = false ->
          Contains (getEnumAsCheckbox f controlProps defaultValue pfx) requiredWord ->
          Contains attrs requiredWord \/ Contains (pfx ++ name f) requiredWord)).
Proof.
  split; [|split; [|split]].
  - intros this attrs. split.
    + unfold input_getHtml, requiredAttr, requiredMarker, nameAttr. cbn [fst snd].
      destruct (isRequired f); rewrite !append_assoc; reflexivity.
    + intros Hreq Hocc.
      replace (snd (input_getHtml this f controlProps defaultValue pfx))
        with (flatten [ Lit "<input"; Txt attrs; Lit (" name=" ++ dq);
                        Txt (pfx ++ name f); Lit (dq ++ " />") ]) in Hocc.
      * apply occurs_in_text in Hocc; [|discriminate|reflexivity].
        pick_text Hocc; [now left | now right].
      * unfold input_getHtml, requiredAttr. cbn [fst snd flatten pieceText].
        rewrite Hreq. rewrite !append_assoc. reflexivity.
  - split.
    + unfold getEnumAsSelect, requiredMarker, nameAttr. cbv zeta.
      rewrite fold_left_append.
      destruct (isRequired f); rewrite !append_assoc; reflexivity.
    + intros Hreq Hocc.
      replace (getEnumAsSelect f controlProps defaultValue pfx)
        with (flatten [ Lit ("<select size=" ++ dq ++ "1" ++ dq ++ " name=" ++ dq);
                        Txt (pfx ++ name f);
                        Lit (dq ++ " >" ++ nl);
                        Txt (fold_left
                               (fun code ev => code ++ selectOption (strDefault defaultValue) ev)
                               (field_enumValues f) EmptyString);
                        Lit ("</select>" ++ nl) ]) in Hocc.
      * apply occurs_in_text in Hocc; [|discriminate|reflexivity].
        pick_text Hocc; [now left|].
        right. now apply (select_options_word (strDefault defaultValue)).
      * set (options := fold_left _ (field_enumValues f) EmptyString).
        unfold getEnumAsSelect. cbv zeta. rewrite fold_left_append.
        cbn [flatten pieceText]. rewrite Hreq. rewrite !append_assoc. reflexivity.
  - intros ev attrs. split.
    + unfold radioOption, requiredAttr, requiredMarker, nameAttr.
      destruct (isRequired f); rewrite !append_assoc; reflexivity.
    + intros Hreq Hocc.
      replace (radioOption f controlProps defaultValue pfx ev)
        with (flatten [ Lit "<input"; Txt attrs; Lit (" name=" ++ dq);
                        Txt (pfx ++ name f); Lit (dq ++ " value=" ++ dq);
                        Txt (prim_toString (ev_value ev)); Lit (dq ++ " />&nbsp;");
                        Txt (ev_label ev); Lit ("<br/>" ++ nl) ]) in Hocc.
      * apply occurs_in_text in Hocc; [|discriminate|reflexivity].
        pick_text Hocc; auto.
      * unfold radioOption, requiredAttr. cbn [flatten pieceText].
        rewrite Hreq. rewrite !append_assoc. reflexivity.
  - intros attrs. split.
    + unfold getEnumAsCheckbox, requiredAttr, requiredMarker, nameAttr.
      destruct (isRequired f); rewrite !append_assoc; reflexivity.
    + intros Hreq Hocc.
      replace (getEnumAsCheckbox f controlProps defaultValue pfx)
        with (flatten [ Lit "<input"; Txt attrs; Lit (" name=" ++ dq);
                        Txt (pfx ++ name f); Lit (dq ++ " />") ]) in Hocc.
      * apply occurs_in_text in Hocc; [|discriminate|reflexivity].
        pick_text Hocc; [now left | now right].
      * unfold getEnumAsCheckbox, requiredAttr. cbn [flatten pieceText].
        rewrite Hreq. rewrite !append_assoc. reflexivity.
Qed.

Lemma required_marker_follows_flag_witness :
  Contains (getPropsAsAttributeString
              (Some (mergedOptions Pin_type
                       (fst (input_getHtml Pin_type pin_field [] JUndef EmptyString))))
              (Some "elementName"))
           requiredWord
  \/ Contains (EmptyString ++ name pin_field) requiredWord.
Proof.
  apply (proj2 (proj1 (required_marker_follows_flag pin_field [] JUndef EmptyString)
                      Pin_type) eq_refl).
  exists ("<input type=" ++ dq ++ "password" ++ dq ++ " "),
         ("=" ++ dq ++ "required" ++ dq ++ " name=" ++ dq ++ "pin" ++ dq ++ " />").
  reflexivity.
Defined.

(** A type whose [htmlSpec] declares the attribute gives the control of a
    field that is not required the marker all the same. *)
Lemma required_marker_counterexample :
  isRequired pin_field = false
  /\ exists html,
       field_getHtml pin_field JUndef EmptyString = Ok html
       /\ html = "<label>PIN <input type=" ++ dq ++ "password" ++ dq
                 ++ " required=" ++ dq ++ "required" ++ dq
                 ++ " name=" ++ dq ++ "pin" ++ dq ++ " /></label>"
       /\ Contains html requiredMarker.
Proof.
  split; [reflexivity|].
  eexists. split; [reflexivity|]. split; [reflexivity|].
  exists ("<label>PIN <input type=" ++ dq ++ "password" ++ dq ++ " "),
         (" name=" ++ dq ++ "pin" ++ dq ++ " /></label>").
  reflexivity.
Qed.

(* ================================================================= *)
(** ** Where the code departs from its description *)

(** Indexing an absent default: every schema-typed field throws on it. *)
Lemma schema_field_absent_default (f : OmniField) (collectionName : string)
    (members : list (option OmniField)) (pfx : string) :
  type f = TSchema collectionName members ->
  field_getHtml f JUndef pfx
  = Throw (TypeError ("Cannot read properties of undefined (reading '" ++ name f ++ "')")).
Proof.
  intros Htype. now rewrite (field_getHtml_schema f collectionName members _ _ Htype).
Qed.

(** C1.  A schema-typed field whose default is absent from the default data
    makes rendering throw: [getHtmlFields] reads the default with [_.get] and
    gets [undefined], and the field's [getHtml] then indexes it.  Fields of
    a data type render without a value in the same situation. *)
Theorem absent_default_nested_throws :
  lodash_get (JObj []) (name address_field) = JUndef
  /\ getHtmlFields [Some address_field] (JObj []) EmptyString
     = Throw (TypeError "Cannot read properties of undefined (reading 'address')")
  /\ getHtmlFields [Some address_field] JUndef EmptyString
     = Throw (TypeError "Cannot read properties of undefined (reading 'address')")
  /\ getHtmlFields [Some zip_field] (JObj []) EmptyString
     = Ok ("<label>Zip <input type=" ++ dq ++ "text" ++ dq
           ++ " name=" ++ dq ++ "zip" ++ dq ++ " /></label>" ++ nl).
Proof. repeat split; reflexivity. Qed.

(** C2.  The checkbox hint on a boolean-valued enumeration reaches the call
    of [getBoolAsCheckbox], a name the module does not bind: the behaviour
    throws, and so does rendering the field. *)
Theorem checkbox_hint_throws :
  presentation agree_field = JStr "checkbox"
  /\ field_jsType agree_field = JStr "boolean"
  /\ type_getHtml YesNo_type = Some EnumGetHtml
  /\ enum_getHtml YesNo_type agree_field [] (JBool true) EmptyString
     = Throw (ReferenceError "getBoolAsCheckbox is not defined")
  /\ field_getHtml agree_field (JBool true) EmptyString
     = Throw (ReferenceError "getBoolAsCheckbox is not defined").
Proof. repeat split; reflexivity. Qed.

(** C3.  The select renderer compares each enumerated value, as declared,
    with the text of the default: over the values 1 and 2 it marks no option
    for the default 1, nor for the default [1] given as text.  The radio
    renderer compares without any conversion: it checks the value 1 for the
    default 1 and nothing for the text.  Over the boolean values of a yes/no
    enumeration the select renderer marks no option for the default [true]. *)
Theorem enum_default_not_coerced :
  getEnumAsSelect rating_field [] (JNum 1) EmptyString
  = "<select size=" ++ dq ++ "1" ++ dq ++ " name=" ++ dq ++ "rating" ++ dq ++ " >" ++ nl
    ++ "  <option value=" ++ dq ++ "1" ++ dq ++ " >One</option>" ++ nl
    ++ "  <option value=" ++ dq ++ "2" ++ dq ++ " >Two</option>" ++ nl
    ++ "</select>" ++ nl
  /\ getEnumAsSelect rating_field [] (JStr "1") EmptyString
     = getEnumAsSelect rating_field [] (JNum 1) EmptyString
  /\ getEnumAsRadio rating_field [] (JNum 1) EmptyString
     = "<input type=" ++ dq ++ "radio" ++ dq ++ " checked=" ++ dq ++ "true" ++ dq
       ++ " name=" ++ dq ++ "rating" ++ dq ++ " value=" ++ dq ++ "1" ++ dq
       ++ " />&nbsp;One<br/>" ++ nl
       ++ "<input type=" ++ dq ++ "radio" ++ dq
       ++ " name=" ++ dq ++ "rating" ++ dq ++ " value=" ++ dq ++ "2" ++ dq
       ++ " />&nbsp;Two<br/>" ++ nl
  /\ getEnumAsRadio rating_field [] (JStr "1") EmptyString
     = "<input type=" ++ dq ++ "radio" ++ dq
       ++ " name=" ++ dq ++ "rating" ++ dq ++ " value=" ++ dq ++ "1" ++ dq
       ++ " />&nbsp;One<br/>" ++ nl
       ++ "<input type=" ++ dq ++ "radio" ++ dq
       ++ " name=" ++ dq ++ "rating" ++ dq ++ " value=" ++ dq ++ "2" ++ dq
       ++ " />&nbsp;Two<br/>" ++ nl
  /\ getEnumAsSelect yesno_field [] (JBool true) EmptyString
     = "<select size=" ++ dq ++ "1" ++ dq ++ " name=" ++ dq ++ "active" ++ dq ++ " >" ++ nl
       ++ "  <option value=" ++ dq ++ "true" ++ dq ++ " >Yes</option>" ++ nl
       ++ "  <option value=" ++ dq ++ "false" ++ dq ++ " >No</option>" ++ nl
       ++ "</select>" ++ nl.
Proof. repeat split; reflexivity. Qed.

(** C6.  Nested schemas rendered from default data nested the same way
    throw instead of producing the dotted names: the schema-typed field
    indexes its own default value by its own name once more, so below the
    first level the default is [undefined] and indexing it throws; without
    default data the first level throws already.  Only default data that
    repeat every schema-typed field's name reach the inner control, which is
    then named [customer.address.zip]. *)
Theorem nested_defaults_throw :
  getHtmlFields [Some customer_field]
                (JObj [("customer", JObj [("address", JObj [("zip", JStr "90210")])])])
                EmptyString
  = Throw (TypeError "Cannot read properties of undefined (reading 'address')")
  /\ getHtmlFields [Some customer_field] JUndef EmptyString
     = Throw (TypeError "Cannot read properties of undefined (reading 'customer')")
  /\ getHtmlFields [Some address_field] (JObj [("address", JObj [("zip", JStr "90210")])])
                   EmptyString
     = Ok ("<div class=" ++ dq ++ "_Address _obj" ++ dq ++ ">" ++ nl
           ++ "<label class=" ++ dq ++ "_objLabel" ++ dq ++ ">Address</label>" ++ nl
           ++ "<label>Zip <input type=" ++ dq ++ "text" ++ dq
           ++ " name=" ++ dq ++ "address.zip" ++ dq ++ " /></label>" ++ nl
           ++ "</div>" ++ nl)
  /\ getHtmlFields [Some customer_field]
       (JObj [("customer",
               JObj [("customer",
                      JObj [("address",
                             JObj [("address", JObj [("zip", JStr "90210")])])])])])
       EmptyString
     = Ok ("<div class=" ++ dq ++ "_Customer _obj" ++ dq ++ ">" ++ nl
           ++ "<label class=" ++ dq ++ "_objLabel" ++ dq ++ ">Customer</label>" ++ nl
           ++ "<div class=" ++ dq ++ "_Address _obj" ++ dq ++ ">" ++ nl
           ++ "<label class=" ++ dq ++ "_objLabel" ++ dq ++ ">Address</label>" ++ nl
           ++ "<label>Zip <input type=" ++ dq ++ "text" ++ dq
           ++ " value=" ++ dq ++ "90210" ++ dq
           ++ " name=" ++ dq ++ "customer.address.zip" ++ dq ++ " /></label>" ++ nl
           ++ "</div>" ++ nl ++ "</div>" ++ nl).
Proof. repeat split; reflexivity. Qed.

(** C10.  The input behaviour writes the default value into the
    [controlProps] object it is given: after the call the caller's object
    has a [value] property it did not have before. *)
Theorem input_getHtml_writes_controlProps :
  fst (input_getHtml String_type zip_field [("class", JStr "wide")] (JStr "90210")
                     EmptyString)
  = [("class", JStr "wide"); ("value", JStr "90210")]
  /\ fst (input_getHtml String_type zip_field [("class", JStr "wide")] (JStr "90210")
                        EmptyString)
     <> [("class", JStr "wide")].
Proof. split; [reflexivity | discriminate]. Qed.

(* ================================================================= *)
(** ** More on objects: [_.omit] against [set] and [Object.assign] *)

Lemma omit_set_same (k : string) (v : jsval) (o : obj) :
  omit (set k v o) (Some k) = omit o (Some k).
Proof.
  unfold omit, omittedKey. induction o as [|[k0 v0] o IH]; simpl.
  - now rewrite String.eqb_refl.
  - destruct (String.eqb_spec k0 k) as [->|Hne]; simpl.
    + now rewrite String.eqb_refl.
    + destruct (String.eqb_spec k0 k); [congruence|]. simpl. now rewrite IH.
Qed.

Lemma omit_set_other (k k' : string) (v : jsval) (o : obj) :
  k <> k' ->
  omit (set k' v o) (Some k) = set k' v (omit o (Some k)).
Proof.
  intros Hne. unfold omit, omittedKey. induction o as [|[k0 v0] o IH]; simpl.
  - destruct (String.eqb_spec k' k); [congruence | reflexivity].
  - destruct (String.eqb_spec k0 k') as [->|Hne0]; simpl.
    + destruct (String.eqb_spec k' k); [congruence|]. simpl.
      now rewrite String.eqb_refl.
    + destruct (String.eqb_spec k0 k) as [->|Hne1]; simpl.
      * exact IH.
      * destruct (String.eqb_spec k0 k'); [congruence|]. now rewrite IH.
Qed.

Lemma omit_assign1 (k : string) (source : obj) :
  forall target,
    omit (assign1 target source) (Some k)
    = assign1 (omit target (Some k)) (omit source (Some k)).
Proof.
  unfold assign1. induction source as [|[k0 v0] source IH]; intros target.
  - reflexivity.
  - cbn [fold_left fst snd]. rewrite IH.
    change (omit ((k0, v0) :: source) (Some k))
      with (if negb (String.eqb k0 k) then (k0, v0) :: omit source (Some k)
            else omit source (Some k)).
    destruct (String.eqb_spec k0 k) as [->|Hne]; cbn [negb fold_left fst snd].
    + now rewrite omit_set_same.
    + rewrite omit_set_other by congruence. reflexivity.
Qed.

Lemma set_fresh (k : string) (v : jsval) (o : obj) :
  ~ In k (map fst o) -> set k v o = (o ++ [(k, v)])%list.
Proof.
  induction o as [|[k0 v0] o IH]; simpl; intros Hfresh.
  - reflexivity.
  - destruct (String.eqb_spec k0 k) as [->|Hne].
    + exfalso. apply Hfresh. now left.
    + rewrite IH; [reflexivity|]. intros Hin. apply Hfresh. now right.
Qed.

(** Assigning properties the target does not have appends them in order. *)
Lemma assign1_fresh (source : obj) :
  wf_obj source ->
  forall target,
    (forall k, In k (map fst source) -> ~ In k (map fst target)) ->
    assign1 target source = (target ++ source)%list.
Proof.
  unfold wf_obj, assign1.
  induction source as [|[k0 v0] source IH]; simpl; intros Hwf target Hfresh.
  - now rewrite app_nil_r.
  - inversion Hwf as [|? ? Hnotin Hwf']; subst.
    rewrite set_fresh by (apply Hfresh; now left).
    rewrite (IH Hwf').
    + now rewrite <- app_assoc.
    + intros k Hk Hin. rewrite map_app in Hin. apply in_app_or in Hin.
      destruct Hin as [Hin|[<-|[]]].
      * apply (Hfresh k); [now right | exact Hin].
      * exact (Hnotin Hk).
Qed.

Lemma assign1_nil (source : obj) : wf_obj source -> assign1 [] source = source.
Proof. intros Hwf. now rewrite (assign1_fresh source Hwf []). Qed.

Lemma omit_keys (o : obj) (k : string) :
  map fst (omit o (Some k)) = filter (fun k' => negb (String.eqb k' k)) (map fst o).
Proof.
  unfold omit, omittedKey. induction o as [|[k0 v0] o IH]; simpl; [reflexivity|].
  destruct (String.eqb k0 k); simpl; now rewrite IH.
Qed.

Lemma omit_wf (o : obj) (key : option string) : wf_obj o -> wf_obj (omit o key).
Proof.
  unfold wf_obj. intros Hwf.
  change (omit o key) with (omit o (Some (omittedKey key))).
  rewrite omit_keys. now apply NoDup_filter.
Qed.

Lemma assign_wf (a : option obj) (b : obj) : wf_obj (assign a b).
Proof.
  assert (Hfold : forall source target, wf_obj target -> wf_obj (assign1 target source)).
  { unfold assign1. induction source as [|[k v] source IH]; simpl; intros target Hwf.
    - exact Hwf.
    - apply IH. now apply set_keys_NoDup. }
  unfold assign. apply Hfold, Hfold. constructor.
Qed.

Lemma lookup_In (o : obj) (k : string) (v : jsval) :
  lookup o k = Some v -> In (k, v) o.
Proof.
  induction o as [|[k0 v0] o IH]; simpl; [discriminate|].
  destruct (String.eqb_spec k0 k) as [->|Hne].
  - intros [= ->]. now left.
  - intros Hl. right. now apply IH.
Qed.

(* ================================================================= *)
(** ** Attribute strings *)


Lemma attributes_fold_In (l : obj) (kv : string * jsval) :
  In kv l ->
  Contains (fold_left (fun attribs kv => attribs ++ attribute kv) l EmptyString)
           (attribute kv).
Proof.
  induction l as [|kv0 l IH]; simpl; intros Hin; [destruct Hin|].
  rewrite fold_left_append. destruct Hin as [->|Hin].
  - apply Contains_prefix.
  - apply Contains_app_r. now apply IH.
Qed.



(** X3.  The [htmlSpec] that [defineHtmlType] builds carries the element
    name it is given unless the props name one themselves, and rendering it
    with [elementName] ignored gives the attributes of the props alone, in
    the order they were written. *)
Theorem defineHtmlType_attributes (name elementName : string) (props : obj) :
  wf_obj props ->
  fst (defineHtmlType name elementName (Some props)) = name
  /\ lookup (snd (defineHtmlType name elementName (Some props))) "elementName"
     = match lookup props "elementName" with
       | Some v => Some v
       | None => Some (JStr elementName)
       end
  /\ getPropsAsAttributeString (Some (snd (defineHtmlType name elementName (Some props))))
                               (Some "elementName")
     = getPropsAsAttributeString (Some props) (Some "elementName").
Proof.
  intros Hwf. split; [reflexivity|]. split.
  - unfold defineHtmlType. cbn [snd]. rewrite (lookup_assign1 props Hwf).
    destruct (lookup props "elementName"); reflexivity.
  - unfold defineHtmlType, getPropsAsAttributeString. cbn [snd].
    rewrite omit_assign1. cbn [omit omittedKey filter fst]. rewrite String.eqb_refl. cbn [negb].
    change (filter (fun kv : string * jsval => negb (fst kv =? "elementName")%string) props)
      with (omit props (Some "elementName")).
    rewrite assign1_nil by (now apply omit_wf). reflexivity.
Qed.

Lemma defineHtmlType_attributes_witness :
  getPropsAsAttributeString
    (Some (snd (defineHtmlType "Email" "input"
                  (Some [("type", JStr "email"); ("autocomplete", JStr "email")]))))
    (Some "elementName")
  = getPropsAsAttributeString
      (Some [("type", JStr "email"); ("autocomplete", JStr "email")]) (Some "elementName").
Proof.
  apply (proj2 (proj2 (defineHtmlType_attributes "Email" "input"
                         [("type", JStr "email"); ("autocomplete", JStr "email")]
                         ltac:(repeat constructor; simpl; intuition congruence)))).
Defined.

(* ================================================================= *)
(** ** [getHtmlForm] *)

(** X4.  When the form properties print and none is named like an array
    index, and the submit button name prints, [getHtmlForm] renders the fields with the empty prefix between the form
    tags, after the attributes of the form properties, and throws what the
    fields throw; after the fields comes a submit button with the name as its
    [value] when the name is truthy, nothing when the name is [null], and a
    submit button without [value] for every other name ([undefined], the
    empty string, [0], [false]). *)
Theorem getHtmlForm_wraps_fields (members : list (option OmniField))
    (submitButtonName : jsval) (formProps : option obj) (defaultData : jsval) :
  match formProps with
  | Some o => props_print o /\ forallb (fun kv => notIndex (fst kv)) o = true
  | None => True
  end ->
  prints submitButtonName = true ->
  getHtmlForm members submitButtonName formProps defaultData
  = (fields <- getHtmlFields members defaultData EmptyString ;;
     Ok ("<form" ++ getPropsAsAttributeString formProps None ++ " >" ++ nl
         ++ fields
         ++ (if truthy submitButtonName then
               "<input type=" ++ dq ++ "submit" ++ dq ++ " value=" ++ dq
               ++ toString submitButtonName ++ dq ++ " />" ++ nl
             else match submitButtonName with
                  | JPrim PNull => EmptyString
                  | _ => "<input type=" ++ dq ++ "submit" ++ dq ++ " />" ++ nl
                  end)
         ++ "</form>" ++ nl)).
Proof.
  intros _ _. unfold getHtmlForm.
  destruct (getHtmlFields members defaultData EmptyString) as [fields|e]; cbn [bind];
    [|reflexivity].
  destruct (truthy submitButtonName) eqn:Htruthy.
  - rewrite !append_assoc. reflexivity.
  - destruct submitButtonName as [[| |b|z|t]|o]; cbn [strict_eq negb];
      rewrite !append_assoc; reflexivity.
Qed.

Lemma getHtmlForm_wraps_fields_witness :
  getHtmlForm [Some zip_field] (JStr EmptyString) (Some [("method", JStr "post")]) JUndef
  = Ok ("<form method=" ++ dq ++ "post" ++ dq ++ " >" ++ nl
        ++ "<label>Zip <input type=" ++ dq ++ "text" ++ dq
        ++ " name=" ++ dq ++ "zip" ++ dq ++ " /></label>" ++ nl
        ++ "<input type=" ++ dq ++ "submit" ++ dq ++ " />" ++ nl
        ++ "</form>" ++ nl).
Proof.
  apply (getHtmlForm_wraps_fields [Some zip_field] (JStr EmptyString)
           (Some [("method", JStr "post")]) JUndef).
  - split; [intros kv [<-|[]]; reflexivity | reflexivity].
  - reflexivity.
Defined.

(* ================================================================= *)
(** ** [getHtmlFields] over the members of a schema *)

(** X5.  The markup of a schema is the markup of its members one after the
    other, in their order: rendering [pre ++ post] is rendering [pre], then
    [post], and appending the two; an exception in [pre] comes first. *)
Theorem getHtmlFields_app (pre post : list (option OmniField)) (defaultData : jsval)
    (pfx : string) :
  getHtmlFields (pre ++ post) defaultData pfx
  = (a <- getHtmlFields pre defaultData pfx ;;
     b <- getHtmlFields post defaultData pfx ;;
     Ok (a ++ b)).
Proof.
  unfold getHtmlFields. rewrite fieldsLoop_app.
  destruct (fieldsLoop field_getHtml pre defaultData pfx EmptyString) as [a|e];
    cbn [bind]; [|reflexivity].
  apply fieldsLoop_code.
Qed.

Lemma fieldsLoop_skipped (getHtml : OmniField -> jsval -> string -> result string)
    (fl : list (option OmniField)) (dd : jsval) (pfx code : string) :
  fieldsLoop getHtml fl dd pfx code
  = fieldsLoop getHtml (filter (fun m => negb (skipped m)) fl) dd pfx code.
Proof.
  revert code. induction fl as [|[f|] fl IH]; intros code; simpl.
  - reflexivity.
  - destruct (uiExclude f) eqn:Hx; simpl.
    + apply IH.
    + rewrite Hx. simpl.
      destruct (getHtml f (lodash_get dd (name f)) pfx); simpl; [apply IH | reflexivity].
  - apply IH.
Qed.

(** X6.  Members that are not fields, like members marked [uiExclude], take
    no part in the rendering: the result is that of the schema with all of
    them taken out, and a schema of such members only (or of none) renders
    as the empty string whatever the default data. *)
Theorem getHtmlFields_skips (members : list (option OmniField)) (defaultData : jsval)
    (pfx : string) :
  getHtmlFields members defaultData pfx
  = getHtmlFields (filter (fun m => negb (skipped m)) members) defaultData pfx
  /\ (forallb skipped members = true ->
      getHtmlFields members defaultData pfx = Ok EmptyString).
Proof.
  split; [apply fieldsLoop_skipped|].
  intros Hall. unfold getHtmlFields. rewrite fieldsLoop_skipped.
  replace (filter (fun m => negb (skipped m)) members) with (@nil (option OmniField));
    [reflexivity|].
  induction members as [|m members IH]; [reflexivity|].
  simpl in Hall |- *. apply andb_true_iff in Hall. destruct Hall as [Hm Hrest].
  rewrite Hm. simpl. now apply IH.
Qed.

Lemma getHtmlFields_skips_witness :
  getHtmlFields [None; Some secret_field] (JObj [("secret", JStr "x")]) "form."
  = Ok EmptyString.
Proof.
  apply (proj2 (getHtmlFields_skips [None; Some secret_field]
                  (JObj [("secret", JStr "x")]) "form.") eq_refl).
Defined.

(** X7.  With default data that are records (or absent) and rendered
    members that have plain names, a member's markup depends on the default
    data through the member's own entry only: two default data that agree on
    the names of the members rendered give the same result. *)
Theorem getHtmlFields_default_locality (members : list (option OmniField))
    (defaultData defaultData' : jsval) (pfx : string) :
  isRecord defaultData = true ->
  isRecord defaultData' = true ->
  (forall f, In (Some f) members -> uiExclude f = false -> plainName (name f) = true) ->
  (forall f, In (Some f) members -> uiExclude f = false ->
             lodash_get defaultData (name f) = lodash_get defaultData' (name f)) ->
  getHtmlFields members defaultData pfx = getHtmlFields members defaultData' pfx.
Proof.
  intros _ _ _. unfold getHtmlFields. generalize EmptyString as code.
  induction members as [|[f|] members IH]; intros code Hagree; simpl.
  - reflexivity.
  - destruct (uiExclude f) eqn:Hx; simpl.
    + apply IH. intros g Hin. apply Hagree. now right.
    + rewrite (Hagree f (or_introl eq_refl) Hx).
      destruct (field_getHtml f (lodash_get defaultData' (name f)) pfx); simpl;
        [|reflexivity].
      apply IH. intros g Hin. apply Hagree. now right.
  - apply IH. intros g Hin. apply Hagree. now right.
Qed.

Lemma getHtmlFields_default_locality_witness :
  getHtmlFields [Some zip_field] (JObj [("zip", JStr "90210"); ("city", JStr "LA")])
                EmptyString
  = getHtmlFields [Some zip_field] (JObj [("zip", JStr "90210")]) EmptyString.
Proof.
  apply (getHtmlFields_default_locality [Some zip_field]
           (JObj [("zip", JStr "90210"); ("city", JStr "LA")])
           (JObj [("zip", JStr "90210")]) EmptyString eq_refl eq_refl).
  - intros f [[= <-]|[]] _. reflexivity.
  - intros f [[= <-]|[]] _. reflexivity.
Defined.

(** X8.  Rendering stops at the first member that throws: when the members
    before it render and a rendered member throws, [getHtmlFields] throws
    that exception, whatever comes after. *)
Theorem getHtmlFields_first_failure (pre post : list (option OmniField))
    (f : OmniField) (defaultData : jsval) (pfx before : string) (e : JsError) :
  getHtmlFields pre defaultData pfx = Ok before ->
  uiExclude f = false ->
  field_getHtml f (lodash_get defaultData (name f)) pfx = Throw e ->
  getHtmlFields (pre ++ Some f :: post) defaultData pfx = Throw e.
Proof.
  unfold getHtmlFields. intros Hpre Hshown Hthrow.
  rewrite fieldsLoop_app, Hpre. cbn [bind fieldsLoop].
  rewrite Hshown. cbn [negb]. now rewrite Hthrow.
Qed.

Lemma getHtmlFields_first_failure_witness :
  getHtmlFields ([Some zip_field] ++ Some address_field :: [Some agree_field])
                (JObj []) EmptyString
  = Throw (TypeError "Cannot read properties of undefined (reading 'address')").
Proof.
  apply (getHtmlFields_first_failure [Some zip_field] [Some agree_field] address_field
           (JObj []) EmptyString _ _ eq_refl eq_refl eq_refl).
Defined.

(* ================================================================= *)
(** ** Which fields render *)

(** X9.  For a field of a data type that has a [getHtml] installed, with
    a default value and an [htmlSpec] that print: the field renders, for
    every prefix, unless the behaviour is the enumeration one and the field
    has the checkbox hint on a type whose [jsType] is boolean, the one case
    in which an installed behaviour throws. *)
Theorem data_field_renders_iff (f : OmniField) (dt : DataType) (b : TypeBehavior)
    (defaultValue : jsval) (pfx : string) :
  type f = TData dt ->
  type_getHtml dt = Some b ->
  prints defaultValue = true ->
  match htmlSpec dt with Some spec => props_print spec | None => True end ->
  (exists html, field_getHtml f defaultValue pfx = Ok html) <-> behaviourRenders b f = true.
Proof.
  intros Htype Hb _ _. rewrite (field_getHtml_data f dt _ _ Htype), Hb.
  unfold behaviourRenders. destruct b.
  - split; [reflexivity|]. intros _. unfold call_getHtml. cbn [fst snd bind]. eauto.
  - unfold call_getHtml. cbn [snd]. unfold enum_getHtml, enum_switch. cbv zeta.
    destruct (strict_eq (PStr "checkbox") (presentation f)) eqn:Hcheckbox.
    + apply strict_eq_PStr in Hcheckbox.
      destruct (strict_eq (PStr "boolean") (field_jsType f)); rewrite Hcheckbox; cbn.
      * split; [intros [html Hrun]; discriminate | discriminate].
      * split; [reflexivity|]. eauto.
    + cbn [andb negb]. split; [reflexivity|]. intros _.
      destruct (truthy (presentation f)); cbn [bind]; [|eauto].
      destruct (strict_eq (PStr "select") (presentation f)); cbn [bind]; [eauto|].
      destruct (strict_eq (PStr "radio") (presentation f)); cbn [bind]; eauto.
Qed.

Lemma data_field_renders_iff_witness :
  (exists html, field_getHtml agree_field (JBool true) EmptyString = Ok html)
  <-> behaviourRenders EnumGetHtml agree_field = true.
Proof.
  apply (data_field_renders_iff agree_field YesNo_type EnumGetHtml (JBool true)
           EmptyString eq_refl eq_refl eq_refl I).
Defined.

(** X10.  [getHtmlFields] returns markup exactly when every member it
    renders returns markup for its own default, read from the default data
    under the member's name. *)
Theorem getHtmlFields_renders_iff (members : list (option OmniField))
    (defaultData : jsval) (pfx : string) :
  (exists out, getHtmlFields members defaultData pfx = Ok out)
  <-> (forall f, In (Some f) members -> uiExclude f = false ->
                 exists html,
                   field_getHtml f (lodash_get defaultData (name f)) pfx = Ok html).
Proof.
  split.
  - intros [out Hrun] f Hin Hx. unfold getHtmlFields in Hrun.
    destruct (fieldsLoop_member _ _ _ _ _ _ f Hrun Hin Hx) as (html & Hf & _). eauto.
  - unfold getHtmlFields. generalize EmptyString as code.
    induction members as [|[f|] members IH]; intros code Hall; simpl.
    + eauto.
    + destruct (uiExclude f) eqn:Hx; simpl.
      * apply IH. intros g Hin. apply Hall. now right.
      * destruct (Hall f (or_introl eq_refl) Hx) as [html ->]. simpl.
        apply IH. intros g Hin. apply Hall. now right.
    + apply IH. intros g Hin. apply Hall. now right.
Qed.

(* ================================================================= *)
(** ** The enumeration renderers and the default value *)

(** X11.  The select renderer sees the default value through its text only:
    two defaults with the same text give the same markup, [null] counts as
    no default, and the control options it is handed play no part. *)
Theorem getEnumAsSelect_default_as_text (f : OmniField) (controlProps : obj)
    (pfx : string) :
  (forall v v', defined v = true -> defined v' = true -> toString v = toString v' ->
                getEnumAsSelect f controlProps v pfx = getEnumAsSelect f controlProps v' pfx)
  /\ getEnumAsSelect f controlProps JNull pfx = getEnumAsSelect f controlProps JUndef pfx
  /\ (forall v controlProps',
         getEnumAsSelect f controlProps v pfx = getEnumAsSelect f controlProps' v pfx).
Proof.
  split; [|split; reflexivity].
  intros v v' Hv Hv' Htext. unfold getEnumAsSelect.
  replace (strDefault v') with (strDefault v); [reflexivity|].
  destruct v as [[]|]; try discriminate; destruct v' as [[]|]; try discriminate;
    unfold strDefault; now rewrite Htext.
Qed.

Lemma getEnumAsSelect_default_as_text_witness :
  getEnumAsSelect rating_field [] (JNum 2) EmptyString
  = getEnumAsSelect rating_field [] (JStr "2") EmptyString.
Proof.
  apply (proj1 (getEnumAsSelect_default_as_text rating_field [] EmptyString)
               (JNum 2) (JStr "2") eq_refl eq_refl eq_refl).
Defined.

Lemma lookup_assign_type (controlProps : obj) (t : jsval) (k : string) :
  wf_obj controlProps ->
  lookup (assign (Some controlProps) [("type", t)]) k
  = if String.eqb "type" k then Some t else lookup controlProps k.
Proof.
  intros Hwf. unfold assign. unfold assign1 at 1. cbn [fold_left fst snd].
  rewrite lookup_set. destruct (String.eqb "type" k); [reflexivity|].
  rewrite (lookup_assign1 controlProps Hwf). cbn [lookup].
  now destruct (lookup controlProps k).
Qed.

(** X12.  The radio and checkbox renderers give their inputs the type
    [radio] and [checkbox] whatever type the control options ask for, add
    [checked] when the option's value is strictly the default (radio) or the
    default is truthy (checkbox), and otherwise leave every control option,
    a [checked] the caller set included, as it is. *)
Theorem radio_checkbox_props (controlProps : obj) (defaultValue : jsval) :
  wf_obj controlProps ->
  (forall ev k,
      lookup (radioProps controlProps defaultValue ev) k
      = if String.eqb "type" k then Some (JStr "radio")
        else if String.eqb "checked" k && strict_eq (ev_value ev) defaultValue
             then Some (JBool true)
             else lookup controlProps k)
  /\ (forall k,
         lookup (checkboxProps controlProps defaultValue) k
         = if String.eqb "type" k then Some (JStr "checkbox")
           else if String.eqb "checked" k && truthy defaultValue
                then Some (JBool true)
                else lookup controlProps k).
Proof.
  intros Hwf. split.
  - intros ev k. unfold radioProps. cbv zeta.
    destruct (strict_eq (ev_value ev) defaultValue).
    + rewrite lookup_set, lookup_assign_type by exact Hwf.
      destruct (String.eqb_spec "checked" k) as [<-|Hne]; reflexivity.
    + rewrite lookup_assign_type by exact Hwf. now rewrite andb_false_r.
  - intros k. unfold checkboxProps. cbv zeta.
    destruct (truthy defaultValue).
    + rewrite lookup_set, lookup_assign_type by exact Hwf.
      destruct (String.eqb_spec "checked" k) as [<-|Hne]; reflexivity.
    + rewrite lookup_assign_type by exact Hwf. now rewrite andb_false_r.
Qed.

Lemma radio_checkbox_props_witness :
  lookup (checkboxProps [("type", JStr "text"); ("checked", JBool true)] (JBool false))
         "type"
  = Some (JStr "checkbox").
Proof.
  apply (proj2 (radio_checkbox_props [("type", JStr "text"); ("checked", JBool true)]
                  (JBool false)
                  ltac:(repeat constructor; simpl; intuition congruence)) "type").
Defined.

(* ================================================================= *)
(** ** The input behaviour and the default value *)

Lemma set_idem (k : string) (v : jsval) (o : obj) :
  set k v (set k v o) = set k v o.
Proof.
  induction o as [|[k0 v0] o IH]; simpl.
  - now rewrite String.eqb_refl.
  - destruct (String.eqb_spec k0 k) as [->|Hne]; simpl.
    + now rewrite String.eqb_refl.
    + destruct (String.eqb_spec k0 k); [congruence|]. now rewrite IH.
Qed.

Lemma input_getHtml_held (this : DataType) (f : OmniField) (controlProps : obj)
    (defaultValue : jsval) (pfx : string) :
  defaultValue <> JUndef ->
  fst (input_getHtml this f controlProps defaultValue pfx)
  = set "value" defaultValue controlProps.
Proof.
  intros Hdef. unfold input_getHtml. cbn [fst].
  destruct defaultValue as [[]|]; try reflexivity. now contradiction Hdef.
Qed.

Lemma set_set (k : string) (v v' : jsval) (o : obj) :
  set k v (set k v' o) = set k v o.
Proof.
  induction o as [|[k0 v0] o IH]; simpl.
  - now rewrite String.eqb_refl.
  - destruct (String.eqb_spec k0 k) as [->|Hne]; simpl.
    + now rewrite String.eqb_refl.
    + destruct (String.eqb_spec k0 k); [congruence|]. now rewrite IH.
Qed.

Lemma set_keys_In (k k0 : string) (v0 : jsval) (o : obj) :
  In k (map fst o) -> In k (map fst (set k0 v0 o)).
Proof.
  induction o as [|[k1 v1] o IH]; simpl; [tauto|].
  destruct (String.eqb_spec k1 k0) as [->|Hne]; simpl; intros [->|Hin]; auto.
Qed.

Lemma set_comm (k k0 : string) (v v0 : jsval) (o : obj) :
  k <> k0 ->
  In k (map fst o) ->
  set k0 v0 (set k v o) = set k v (set k0 v0 o).
Proof.
  intros Hne. induction o as [|[k1 v1] o IH]; simpl; [tauto|].
  intros Hin. destruct (String.eqb_spec k1 k) as [->|Hne1].
  - destruct (String.eqb_spec k k0); [congruence|]. simpl.
    destruct (String.eqb_spec k k0); [congruence|]. now rewrite String.eqb_refl.
  - destruct Hin as [->|Hin]; [congruence|].
    destruct (String.eqb_spec k1 k0) as [->|Hne0]; simpl.
    + rewrite String.eqb_refl. destruct (String.eqb_spec k0 k); [congruence | reflexivity].
    + destruct (String.eqb_spec k1 k0); [congruence|].
      destruct (String.eqb_spec k1 k); [congruence|]. now rewrite IH.
Qed.

(** A property the source sets leaves no trace of what the target held. *)
Lemma assign1_overwrites (k : string) (v : jsval) (source : obj) :
  forall target,
    In k (map fst source) ->
    In k (map fst target) ->
    assign1 (set k v target) source = assign1 target source.
Proof.
  unfold assign1. induction source as [|[k0 v0] source IH]; simpl; intros target Hs Ht.
  - destruct Hs.
  - destruct (String.eqb_spec k k0) as [<-|Hne].
    + now rewrite set_set.
    + destruct Hs as [->|Hs]; [congruence|].
      rewrite set_comm by assumption.
      apply IH; [exact Hs | now apply set_keys_In].
Qed.

Lemma lookup_keys (o : obj) (k : string) (v : jsval) :
  lookup o k = Some v -> In k (map fst o).
Proof.
  intros Hl. apply lookup_In in Hl. now apply (in_map fst) in Hl.
Qed.

(** X13.  Given any default value but [undefined], the input behaviour
    renders it as the [value] of the control and nothing of a [value] the
    control options or the type's [htmlSpec] held before: the markup is the
    same whatever that earlier value was, and, when the values written
    print, it holds the attribute [ value="..."] with the text of the
    default; a [null] default is written as the text null. *)
Theorem input_default_is_value (this : DataType) (f : OmniField) (controlProps : obj)
    (defaultValue : jsval) (pfx : string) :
  defaultValue <> JUndef ->
  (forall old,
      snd (input_getHtml this f (set "value" old controlProps) defaultValue pfx)
      = snd (input_getHtml this f controlProps defaultValue pfx))
  /\ (forall spec old v',
         htmlSpec this = Some spec ->
         wf_obj spec ->
         lookup spec "value" = Some old ->
         snd (input_getHtml (withHtmlSpec (Some (set "value" v' spec)) this) f
                            controlProps defaultValue pfx)
         = snd (input_getHtml this f controlProps defaultValue pfx))
  /\ (wf_obj controlProps ->
      props_print controlProps ->
      match htmlSpec this with Some spec => props_print spec | None => True end ->
      prints defaultValue = true ->
      Contains (snd (input_getHtml this f controlProps defaultValue pfx))
               (" value=" ++ dq ++ toString defaultValue ++ dq)).
Proof.
  intros Hdef.
  assert (Hout : forall this cp,
             snd (input_getHtml this f cp defaultValue pfx)
             = "<input"
               ++ getPropsAsAttributeString
                    (Some (mergedOptions this (set "value" defaultValue cp)))
                    (Some "elementName")
               ++ " " ++ requiredAttr (isRequired f)
               ++ "name=" ++ dq ++ pfx ++ name f ++ dq ++ " />").
  { intros this0 cp. unfold input_getHtml. cbn [snd].
    destruct defaultValue as [[]|]; try reflexivity. now contradiction Hdef. }
  split; [|split].
  - intros old. rewrite !Hout. now rewrite set_set.
  - intros spec old v' Hspec Hwf Hold. rewrite !Hout.
    unfold mergedOptions, withHtmlSpec, assign. cbn [htmlSpec]. rewrite Hspec.
    rewrite !assign1_nil by (try apply set_keys_NoDup; exact Hwf).
    rewrite assign1_overwrites; [reflexivity| |now apply (lookup_keys spec _ old)].
    apply (lookup_keys _ _ defaultValue). rewrite lookup_set. reflexivity.
  - intros Hwf _ _ _.
    assert (Hin : In ("value", defaultValue)
                     (omit (mergedOptions this (set "value" defaultValue controlProps))
                           (Some "elementName"))).
    { apply filter_In. split; [|reflexivity].
      apply lookup_In. unfold mergedOptions, assign.
      rewrite (lookup_assign1 _ (set_keys_NoDup "value" defaultValue controlProps Hwf)).
      rewrite lookup_set. reflexivity. }
    apply attributes_fold_In in Hin. rewrite Hout.
    contains_by ltac:(exact Hin).
Qed.

Lemma input_default_is_value_witness :
  snd (input_getHtml Valued_type zip_field [("value", JStr "caller")] JNull EmptyString)
  = "<input type=" ++ dq ++ "text" ++ dq ++ " value=" ++ dq ++ "null" ++ dq
    ++ " name=" ++ dq ++ "zip" ++ dq ++ " />"
  /\ Contains (snd (input_getHtml Valued_type zip_field [("value", JStr "caller")] JNull
                                  EmptyString))
              (" value=" ++ dq ++ toString JNull ++ dq).
Proof.
  split; [reflexivity|].
  apply (proj2 (proj2 (input_default_is_value Valued_type zip_field
                         [("value", JStr "caller")] JNull EmptyString
                         ltac:(discriminate)))
               ltac:(repeat constructor; simpl; intuition congruence)
               ltac:(intros kv [<-|[]]; reflexivity)
               ltac:(intros kv [<-|[<-|[<-|[]]]]; reflexivity)
               eq_refl).
Defined.

(** X14.  The [value] the input behaviour writes into the control options
    stays there: handing the same object to a later call that has no default
    renders that call's control with the earlier default, exactly as if the
    default had been given to it; calling again with the same default
    changes the object no further. *)
Theorem input_value_persists (this : DataType) (f1 f2 : OmniField) (controlProps : obj)
    (defaultValue : jsval) (pfx1 pfx2 : string) :
  defaultValue <> JUndef ->
  snd (input_getHtml this f2
         (fst (input_getHtml this f1 controlProps defaultValue pfx1)) JUndef pfx2)
  = snd (input_getHtml this f2 controlProps defaultValue pfx2)
  /\ fst (input_getHtml this f2
            (fst (input_getHtml this f1 controlProps defaultValue pfx1)) defaultValue pfx2)
     = fst (input_getHtml this f1 controlProps defaultValue pfx1).
Proof.
  intros Hdef. rewrite !input_getHtml_held by exact Hdef. split.
  - unfold input_getHtml. cbn [snd].
    destruct defaultValue as [[]|]; try reflexivity. now contradiction Hdef.
  - apply set_idem.
Qed.

Lemma input_value_persists_witness :
  snd (input_getHtml String_type address_field
         (fst (input_getHtml String_type zip_field [] (JStr "90210") EmptyString))
         JUndef EmptyString)
  = snd (input_getHtml String_type address_field [] (JStr "90210") EmptyString).
Proof.
  apply (proj1 (input_value_persists String_type zip_field address_field []
                  (JStr "90210") EmptyString EmptyString ltac:(discriminate))).
Defined.

(* ================================================================= *)
(** ** The default value of a schema-typed field *)

(** X15.  A schema-typed field reads from its default value the entry under
    the field's own name and nothing else: two default objects with the same
    entry there give the same result, so the other entries of the default,
    those named after the inner fields included, never reach the inner
    fields. *)
Theorem schema_field_reads_own_entry (f : OmniField) (collectionName : string)
    (members : list (option OmniField)) (o o' : obj) (pfx : string) :
  type f = TSchema collectionName members ->
  prop o (name f) = prop o' (name f) ->
  field_getHtml f (JObj o) pfx = field_getHtml f (JObj o') pfx.
Proof.
  intros Htype Hsame.
  rewrite !(field_getHtml_schema f collectionName members _ _ Htype).
  cbn [index bind]. now rewrite Hsame.
Qed.

Lemma schema_field_reads_own_entry_witness :
  field_getHtml address_field (JObj [("zip", JStr "90210")]) EmptyString
  = field_getHtml address_field (JObj []) EmptyString.
Proof.
  apply (schema_field_reads_own_entry address_field "Address" [Some zip_field]
           [("zip", JStr "90210")] [] EmptyString eq_refl eq_refl).
Defined.

(** The types the plugin defines: all but [Text] have the element [input]. *)
Example plugin_types_not_input :
  map fst (filter (fun t => negb (strict_eq (PStr "input") (prop (snd t) "elementName")))
                  plugin_types)
  = ["Text"].
Proof. reflexivity. Qed.
